(** * UCLA enrollment monitor: the availability-extraction engine

    A shallow embedding of [ucla-monitor/monitor.py].  Python [str] values
    are modelled as [string]s over the code points below 256; integers
    are unbounded ([N]), as Python's are, and [int] of a string refuses more
    than 4300 digits, as CPython does.  The browser, the logger and the
    Slack client are an explicit [World] that the stateful functions thread
    through. *)

From Stdlib Require Import Strings.String Strings.Ascii.
From Stdlib Require Import Lists.List Bool.Bool Arith.PeanoNat NArith.NArith.
From Stdlib Require Import Numbers.DecimalString micromega.Lia.
Import ListNotations.

Local Open Scope string_scope.
Local Open Scope bool_scope.
Local Open Scope nat_scope.

(** ** Characters *)

Module Char.

Definition code (c : ascii) : nat := nat_of_ascii c.

(** [str.isspace] on one code point, which is also what [\s] matches in
    a [str] pattern: TAB..CR, FS..US, SPACE, NEL and NBSP. *)
Definition isspace (c : ascii) : bool :=
  let n := code c in
  ((9 <=? n) && (n <=? 13)) || ((28 <=? n) && (n <=? 32))
  || (n =? 133) || (n =? 160).

(** [\d] on one code point. *)
Definition isdigit (c : ascii) : bool :=
  let n := code c in (48 <=? n) && (n <=? 57).

(** [str.lower] on one code point. *)
Definition lower (c : ascii) : ascii :=
  let n := code c in
  if ((65 <=? n) && (n <=? 90))
     || ((192 <=? n) && (n <=? 222) && negb (n =? 215))
  then ascii_of_nat (n + 32) else c.

Definition digit_value (c : ascii) : N := N.of_nat (code c - 48).

Definition newline : ascii := ascii_of_nat 10.

End Char.

(** ** Exceptions *)

(** A computation that returns or raises; an exception is kept as its
    [str(e)]. *)
Inductive result (A : Type) : Type :=
| Ok (a : A)
| Raise (e : string).
Arguments Ok {A} a.
Arguments Raise {A} e.

Definition bind {A B : Type} (m : result A) (k : A -> result B) : result B :=
  match m with
  | Ok a => k a
  | Raise e => Raise e
  end.

Notation "x <- m ;; k" := (bind m (fun x => k))
  (at level 61, m at next level, right associativity).

(** ** Python string operations *)

Module Str.

Fixpoint lower (s : string) : string :=
  match s with
  | EmptyString => EmptyString
  | String c s' => String (Char.lower c) (lower s')
  end.

(** [s.startswith(p)] *)
Fixpoint startswith (s p : string) {struct p} : bool :=
  match p, s with
  | EmptyString, _ => true
  | String a p', String b s' => Ascii.eqb a b && startswith s' p'
  | String _ _, EmptyString => false
  end.

(** [p in s] *)
Fixpoint contains (p s : string) : bool :=
  startswith s p ||
  match s with
  | EmptyString => false
  | String _ s' => contains p s'
  end.

Fixpoint lstrip (s : string) : string :=
  match s with
  | EmptyString => EmptyString
  | String c s' => if Char.isspace c then lstrip s' else s
  end.

Fixpoint rstrip (s : string) : string :=
  match s with
  | EmptyString => EmptyString
  | String c s' =>
      match rstrip s' with
      | EmptyString => if Char.isspace c then EmptyString else String c EmptyString
      | r => String c r
      end
  end.

(** [s.strip()] *)
Definition strip (s : string) : string := rstrip (lstrip s).

(** [s.split] at newlines: never empty, the empty string splits to one
    empty line. *)
Fixpoint split_lines (s : string) : list string :=
  match s with
  | EmptyString => [EmptyString]
  | String c s' =>
      if Ascii.eqb c Char.newline then EmptyString :: split_lines s'
      else match split_lines s' with
           | l :: ls => String c l :: ls
           | [] => [String c EmptyString]
           end
  end.

(** [s[:n]] *)
Fixpoint take (n : nat) (s : string) : string :=
  match n, s with
  | S n', String c s' => String c (take n' s')
  | _, _ => EmptyString
  end.

(** The longest prefix of characters satisfying [p], and the rest: what a
    greedy [p*] consumes. *)
Fixpoint span (p : ascii -> bool) (s : string) : string * string :=
  match s with
  | EmptyString => (EmptyString, EmptyString)
  | String c s' =>
      if p c then let (a, b) := span p s' in (String c a, b)
      else (EmptyString, s)
  end.

(** The number a run of decimal digits denotes. *)
Definition digits_value (s : string) : N :=
  fold_left (fun acc c => (10 * acc + Char.digit_value c)%N)
            (list_ascii_of_string s) 0%N.

(** [str(n)] / the [{n}] of an f-string. *)
Definition of_int (n : N) : string :=
  NilZero.string_of_uint (N.to_uint n).

(** [sys.get_int_max_str_digits()], at its default. *)
Definition int_max_str_digits : nat := 4300.

(** The text of the ValueError that [int] raises on [n] digits. *)
Definition int_limit_error (n : nat) : string :=
  "Exceeds the limit (4300 digits) for integer string conversion: value has "
  ++ of_int (N.of_nat n)
  ++ " digits; use sys.set_int_max_str_digits() to increase the limit".

(** [int(s)] on a run of decimal digits: leading zeros count towards the
    limit. *)
Definition int_of_digits (s : string) : result N :=
  if int_max_str_digits <? String.length s
  then Raise (int_limit_error (String.length s))
  else Ok (digits_value s).

Definition is_empty (s : string) : bool :=
  match s with EmptyString => true | _ => false end.

End Str.

(** ** The regular expressions of the monitor

    Each pattern is written out as the matcher it denotes.  In all of them a
    greedy repetition is followed by a character outside the repeated
    class, so consuming the longest run ([Str.span]) is what the
    backtracking engine finds; the one exception, the leading [\s*] of the
    class-code pattern, is tried at every length. *)

Module Re.

(** A literal, case-sensitively: the rest of the subject after it. *)
Fixpoint lit (p s : string) {struct p} : option string :=
  match p, s with
  | EmptyString, _ => Some s
  | String a p', String b s' => if Ascii.eqb a b then lit p' s' else None
  | String _ _, EmptyString => None
  end.

(** A literal under [re.IGNORECASE]: the matched text and the rest. *)
Fixpoint lit_ci (p s : string) {struct p} : option (string * string) :=
  match p, s with
  | EmptyString, _ => Some (EmptyString, s)
  | String a p', String b s' =>
      if Ascii.eqb (Char.lower a) (Char.lower b) then
        match lit_ci p' s' with
        | Some (m, r) => Some (String b m, r)
        | None => None
        end
      else None
  | String _ _, EmptyString => None
  end.

(** [Class \d+:\s*] with [re.IGNORECASE], anchored at the start of [s]:
    the matched header and the rest. *)
Definition match_header (s : string) : option (string * string) :=
  match lit_ci "Class " s with
  | None => None
  | Some (m, r1) =>
      let (ds, r2) := Str.span Char.isdigit r1 in
      if Str.is_empty ds then None else
      match r2 with
      | String c r3 =>
          if Ascii.eqb c ":" then
            let (ws, r4) := Str.span Char.isspace r3 in
            Some (m ++ ds ++ String c ws, r4)
          else None
      | EmptyString => None
      end
  end.

(** The scan of [re.split] on the header pattern, taken as a capturing
    group and with [re.IGNORECASE], so the headers are kept in the result:
    [pending] is the text since the last header.  A header is never
    empty, so [length s + 1] steps are enough. *)
Fixpoint split_go (fuel : nat) (pending s : string) : list string :=
  match fuel with
  | 0 => [pending ++ s]
  | S fuel' =>
      match match_header s with
      | Some (h, rest) => pending :: h :: split_go fuel' EmptyString rest
      | None =>
          match s with
          | EmptyString => [pending]
          | String c s' => split_go fuel' (pending ++ String c EmptyString) s'
          end
      end
  end.

Definition split_header (s : string) : list string :=
  split_go (S (String.length s)) EmptyString s.

(** What follows the optional leading blanks in [^\s*CODE\s*-\s*]. *)
Definition code_dash (code s : string) : bool :=
  match lit code s with
  | Some r =>
      match snd (Str.span Char.isspace r) with
      | String c _ => Ascii.eqb c "-"
      | EmptyString => false
      end
  | None => false
  end.

(** [re.match] of [^\s*CODE\s*-\s*], where CODE is [re.escape(code)],
    as a truth value. *)
Fixpoint match_code (code s : string) : bool :=
  code_dash code s ||
  match s with
  | String c s' => Char.isspace c && match_code code s'
  | EmptyString => false
  end.

(** A run of one or more characters of class [p]. *)
Definition plus (p : ascii -> bool) (s : string) : option (string * string) :=
  let (a, b) := Str.span p s in
  if Str.is_empty a then None else Some (a, b).

(** [open:\s*(\d+)\s+of\s+\d+\s*left] anchored at the start of [s]:
    group 1 and the text after the match. *)
Definition open_at (s : string) : option (string * string) :=
  match lit "open:" s with
  | None => None
  | Some r1 =>
      match plus Char.isdigit (snd (Str.span Char.isspace r1)) with
      | None => None
      | Some (count, r2) =>
          match plus Char.isspace r2 with
          | None => None
          | Some (_, r3) =>
              match lit "of" r3 with
              | None => None
              | Some r4 =>
                  match plus Char.isspace r4 with
                  | None => None
                  | Some (_, r5) =>
                      match plus Char.isdigit r5 with
                      | None => None
                      | Some (_, r6) =>
                          match lit "left" (snd (Str.span Char.isspace r6)) with
                          | None => None
                          | Some r7 => Some (count, r7)
                          end
                      end
                  end
              end
          end
      end
  end.

Definition colon_or_space (c : ascii) : bool :=
  Ascii.eqb c ":" || Char.isspace c.

(** [waitlist[:\s]*(\d+)] anchored at the start of [s]: group 1 and the
    text after the match. *)
Definition waitlist_at (s : string) : option (string * string) :=
  match lit "waitlist" s with
  | None => None
  | Some r1 => plus Char.isdigit (snd (Str.span colon_or_space r1))
  end.

(** [re.search]: the leftmost position where the anchored pattern
    matches. *)
Fixpoint search {A : Type} (at_start : string -> option A) (s : string)
  : option A :=
  match at_start s with
  | Some m => Some m
  | None =>
      match s with
      | EmptyString => None
      | String _ s' => search at_start s'
      end
  end.

End Re.

(** ** The outside world *)

Inductive level : Type := INFO | WARNING.

(** What the monitor touches outside itself: the page the browser shows
    (reading it may raise), the logger's records and the messages handed to
    the Slack client. *)
Record World : Type := mkWorld {
  body_text : result string;
  log : list (level * string);
  posted : list string
}.

Definition logger (l : level) (msg : string) (w : World) : World :=
  mkWorld (body_text w) (log w ++ [(l, msg)])%list (posted w).

Definition slack_post (msg : string) (w : World) : World :=
  mkWorld (body_text w) (log w) (posted w ++ [msg])%list.

(** ** monitor.py *)

Module Monitor.

Definition COURSES : list (string * string) :=
  [("AERO", "A"); ("SCAND60", "60"); ("M61", "61")].

(** The loop over [range(1, len(parts), 2)], started at index 1. *)
Fixpoint blocks_loop (parts : list string) : list string :=
  match parts with
  | [] => []
  | [header] => [Str.strip (header ++ "")]
  | header :: content :: rest =>
      Str.strip (header ++ content) :: blocks_loop rest
  end.

Definition _get_class_blocks (page_text : string) : list string :=
  blocks_loop (tl (Re.split_header page_text)).

Definition _block_matches_class_code (block class_code : string) : bool :=
  match Str.split_lines (Str.strip block) with
  | _ :: l1 :: _ => Re.match_code class_code (Str.strip l1)
  | _ => false
  end.

Definition starts_lec_lab (stripped : string) : bool :=
  Str.startswith (Str.lower stripped) "lec "
  || Str.startswith (Str.lower stripped) "lab ".

Definition starts_section (next_line : string) : bool :=
  Str.startswith (Str.lower next_line) "lec "
  || Str.startswith (Str.lower next_line) "lab "
  || Str.startswith (Str.lower next_line) "dis ".

(** The [while i < len(content_lines)] loop, on the lines from [i] on. *)
Fixpoint rows_loop (content_lines : list string) : list string :=
  match content_lines with
  | [] => []
  | line :: rest =>
      let stripped := Str.strip line in
      if Str.is_empty stripped then rows_loop rest
      else if starts_lec_lab stripped then
        match rest with
        | next :: rest' =>
            let next_line := Str.strip next in
            if negb (Str.is_empty next_line) && negb (starts_section next_line)
            then (stripped ++ " " ++ next_line) :: rows_loop rest'
            else stripped :: rows_loop rest
        | [] => [stripped]
        end
      else rows_loop rest
  end.

Definition _get_lec_lab_rows (block : string) : list string :=
  rows_loop (skipn 2 (Str.split_lines (Str.strip block))).

Definition is_closed_row (t : string) : bool :=
  Str.contains "closed" t || Str.contains "class full" t.

(** [open_seats.append(int(m.group(1)))], where [int] may raise. *)
Definition add_open (t : string) (open_seats : list N) : result (list N) :=
  if Str.contains "open:" t then
    match Re.search Re.open_at t with
    | Some (group1, _) =>
        n <- Str.int_of_digits group1 ;; Ok (open_seats ++ [n])%list
    | None => Ok open_seats
    end
  else Ok open_seats.

Definition add_waitlist (t : string) (waitlist_seats : list N) : result (list N) :=
  if Str.contains "waitlist" t then
    match Re.search Re.waitlist_at t with
    | Some (group1, _) =>
        n <- Str.int_of_digits group1 ;; Ok (waitlist_seats ++ [n])%list
    | None => Ok waitlist_seats
    end
  else Ok waitlist_seats.

(** [max] of a list already known to be non-empty. *)
Definition max_of (x : N) (xs : list N) : N := fold_left N.max xs x.

(** The [for row in rows] loop and what follows it. *)
Fixpoint status_loop (rows : list string) (open_seats waitlist_seats : list N)
  : result (string * option N) :=
  match rows with
  | row :: rest =>
      let t := Str.lower row in
      if is_closed_row t then Ok ("closed", None)
      else
        open_seats' <- add_open t open_seats ;;
        waitlist_seats' <- add_waitlist t waitlist_seats ;;
        status_loop rest open_seats' waitlist_seats'
  | [] =>
      match open_seats with
      | x :: xs => Ok ("open", Some (max_of x xs))
      | [] =>
          match waitlist_seats with
          | x :: xs => Ok ("waitlist", Some (max_of x xs))
          | [] => Ok ("closed", None)
          end
      end
  end.

Definition _parse_lec_lab_status (rows : list string)
  : result (string * option N) :=
  status_loop rows [] [].

Definition fmt (label what : string) : string :=
  "[" ++ label ++ " - " ++ what ++ "]".

Definition is_not_none (count : option N) : bool :=
  match count with Some _ => true | None => false end.

(** [{count}] in an f-string; a count that [int] accepted is short enough
    to be printed. *)
Definition str_count (count : option N) : string :=
  match count with Some n => Str.of_int n | None => "None" end.

(** The body of the [try] block. *)
Definition lookup (w : World) (label class_code : string)
  : result (string * string) :=
  page_text <- body_text w ;;
  if negb (Str.contains class_code page_text) then
    Ok (fmt label "NOT FOUND", "")
  else
    let blocks := _get_class_blocks page_text in
    let matching_blocks :=
      filter (fun b => _block_matches_class_code b class_code) blocks in
    match matching_blocks with
    | [] => Ok (fmt label "NOT FOUND", "")
    | first :: _ =>
        let all_lec_lab_rows := flat_map _get_lec_lab_rows matching_blocks in
        match all_lec_lab_rows with
        | [] => Ok (fmt label "NOT FOUND", Str.take 600 first)
        | _ :: _ =>
            verdict <- _parse_lec_lab_status all_lec_lab_rows ;;
            let (status, count) := verdict in
            if String.eqb status "closed" then
              Ok (fmt label "CLOSED", Str.take 600 first)
            else if String.eqb status "open" && is_not_none count then
              Ok (fmt label (str_count count ++ " SEATS OPEN"), Str.take 600 first)
            else if String.eqb status "waitlist" && is_not_none count then
              Ok (fmt label (str_count count ++ " WAITLIST SEATS"), Str.take 600 first)
            else Ok (fmt label "CLOSED", Str.take 600 first)
        end
    end.

(** The [try] block with its [except Exception as e] handler. *)
Definition get_course_availability (w : World) (label class_code : string)
  : (string * string) * World :=
  match lookup w label class_code with
  | Ok r => (r, w)
  | Raise e =>
      ((fmt label "ERROR", e),
       logger WARNING ("Extract availability failed for " ++ label ++ ": " ++ e) w)
  end.

(** The test that guards [slack.post] in [main]. *)
Definition available (status : string) : bool :=
  negb (Str.contains "CLOSED" status) && negb (Str.contains "NOT FOUND" status).

(** The [for label, class_code in COURSES] loop of [main], for one page
    refresh. *)
Fixpoint poll (channel : string) (courses : list (string * string)) (w : World)
  : World :=
  match courses with
  | [] => w
  | (label, class_code) :: rest =>
      let '((status, _), w1) := get_course_availability w label class_code in
      let w2 :=
        if available status then
          slack_post ("*" ++ status ++ "*")
            (logger INFO ("Posting " ++ status ++ " to " ++ channel) w1)
        else w1 in
      poll channel rest w2
  end.

End Monitor.

(** ** Vocabulary of the properties *)

(** The text of [s] from position [i] on. *)
Fixpoint skip (i : nat) (s : string) : string :=
  match i, s with
  | S i', String _ s' => skip i' s'
  | _, _ => s
  end.

(** [a] occurs in [s] as a contiguous piece. *)
Definition Substr (a s : string) : Prop :=
  exists x y, s = x ++ a ++ y.

(** The row carries a closed signal, case-insensitively. *)
Definition closed_signal (row : string) : Prop :=
  Str.contains "closed" (Str.lower row) = true
  \/ Str.contains "class full" (Str.lower row) = true.

(** The digits the open-seat pattern captures in a row, matched
    case-insensitively: group 1 of the leftmost match. *)
Definition open_capture (row : string) : option string :=
  option_map fst (Re.search Re.open_at (Str.lower row)).

Definition waitlist_capture (row : string) : option string :=
  option_map fst (Re.search Re.waitlist_at (Str.lower row)).

(** The seat count these digits denote. *)
Definition open_count (row : string) : option N :=
  option_map Str.digits_value (open_capture row).

Definition waitlist_count (row : string) : option N :=
  option_map Str.digits_value (waitlist_capture row).

(** [int] accepts the digits: there are at most 4300 of them. *)
Definition within_limit (capture : option string) : bool :=
  match capture with
  | Some digits => String.length digits <=? Str.int_max_str_digits
  | None => true
  end.

(** Both conversions of a row go through. *)
Definition ints_ok (row : string) : bool :=
  within_limit (open_capture row) && within_limit (waitlist_capture row).

(** The exception the conversions of a row raise, the open-seat count
    first. *)
Definition row_error (row : string) : option string :=
  match open_capture row with
  | Some digits =>
      if within_limit (Some digits) then
        match waitlist_capture row with
        | Some digits' =>
            if within_limit (Some digits') then None
            else Some (Str.int_limit_error (String.length digits'))
        | None => None
        end
      else Some (Str.int_limit_error (String.length digits))
  | None =>
      match waitlist_capture row with
      | Some digits' =>
          if within_limit (Some digits') then None
          else Some (Str.int_limit_error (String.length digits'))
      | None => None
      end
  end.

(** The specification's reading of the counts of a row: every match of the
    open-seat pattern, from left to right, not only the leftmost. *)
Fixpoint findall_open (fuel : nat) (s : string) : list string :=
  match fuel with
  | 0 => []
  | S fuel' =>
      match Re.open_at s with
      | Some (group1, rest) => group1 :: findall_open fuel' rest
      | None =>
          match s with
          | EmptyString => []
          | String _ s' => findall_open fuel' s'
          end
      end
  end.

Definition all_open_counts (rows : list string) : list N :=
  flat_map (fun row =>
              map Str.digits_value
                  (findall_open (S (String.length row)) (Str.lower row)))
           rows.

(** A run of [n] times the character [c]. *)
Fixpoint replicate (n : nat) (c : ascii) : string :=
  match n with
  | 0 => EmptyString
  | S n' => String c (replicate n' c)
  end.

(** A count of 4301 digits. *)
Definition long_count : string := replicate 4301 "9".

Definition one (count : option N) : list N :=
  match count with Some n => [n] | None => [] end.

(** Every count captured in a pool of rows, in row order. *)
Definition captured (count : string -> option N) (rows : list string) : list N :=
  flat_map (fun row => one (count row)) rows.

(** How a row is put together from the trimmed content lines: a lecture
    or lab line alone, or followed by a status line that opens no section. *)
Definition row_shape (stripped : list string) (row : string) : Prop :=
  exists head,
    In head stripped /\ Monitor.starts_lec_lab head = true /\
    (row = head \/
     exists status,
       In status stripped /\ status <> "" /\
       Monitor.starts_section status = false /\
       row = head ++ " " ++ status).

(** The pieces of a split, put back together. *)
Definition join (parts : list string) : string :=
  fold_right append "" parts.

(** No header of the form Class N: starts anywhere in [s]. *)
Definition no_header (s : string) : Prop :=
  forall i, Re.match_header (skip i s) = None.

(** [h] is the leftmost header of [text]: [pre] comes before it and [rest]
    after it. *)
Definition first_header (text pre h rest : string) : Prop :=
  text = pre ++ h ++ rest /\
  Re.match_header (h ++ rest) = Some (h, rest) /\
  forall i, i < String.length pre -> Re.match_header (skip i text) = None.

(** The blocks of a page that match a class code, in document order. *)
Definition matching (page_text class_code : string) : list string :=
  filter (fun b => Monitor._block_matches_class_code b class_code)
         (Monitor._get_class_blocks page_text).

(** The label that goes with a verdict of the classifier. *)
Definition verdict_label (label : string) (verdict : string * option N) : string :=
  let (status, count) := verdict in
  if String.eqb status "closed" then Monitor.fmt label "CLOSED"
  else if String.eqb status "open" && Monitor.is_not_none count
       then Monitor.fmt label (Monitor.str_count count ++ " SEATS OPEN")
  else if String.eqb status "waitlist" && Monitor.is_not_none count
       then Monitor.fmt label (Monitor.str_count count ++ " WAITLIST SEATS")
  else Monitor.fmt label "CLOSED".

(** The verdicts a result label can carry besides ERROR. *)
Definition verdict_text (what : string) : Prop :=
  what = "NOT FOUND" \/ what = "CLOSED" \/
  (exists n, what = Str.of_int n ++ " SEATS OPEN") \/
  (exists n, what = Str.of_int n ++ " WAITLIST SEATS").

(** No occurrence of [p] can begin before [suffix] and end inside it. *)
Definition no_overlap (p suffix : string) : Prop :=
  forall p1 p2, p = p1 ++ p2 -> Str.startswith suffix p2 = true -> p2 = "".

(** Sample pages. *)
Definition nl : string := String Char.newline "".

Definition page_aero : string :=
  "Class 1:" ++ nl ++ "A - Intro to Aerospace" ++ nl
  ++ "Lec 1 Open: 84 of 300 left" ++ nl ++ "Dis 1A Open: 10 of 30 left".

Definition page_dis_only : string :=
  "Class 1:" ++ nl ++ "A - Intro to Aerospace" ++ nl
  ++ "Dis 1A Open: 10 of 30 left".

Definition page_zero : string :=
  "Class 1:" ++ nl ++ "A - Intro to Aerospace" ++ nl
  ++ "Lec 1 Open: 0 of 300 left".

Definition browser (page_text : string) : World :=
  mkWorld (Ok page_text) [] [].

(** A row and a page whose open-seat count has 4301 digits, and a row in
    which the open-seat pattern matches twice. *)
Definition row_long_open : string :=
  "Lec 1 Open: " ++ long_count ++ " of 5 left".

Definition page_long : string :=
  "Class 1:" ++ nl ++ "A - Intro to Aerospace" ++ nl
  ++ "Lec 1" ++ nl ++ "Open: " ++ long_count ++ " of 5 left".

Definition row_two_matches : string :=
  "Lec 1 Open: 3 of 20 left Open: 10 of 30 left".

(** Every character of [s] is white space. *)
Fixpoint blank (s : string) : bool :=
  match s with
  | EmptyString => true
  | String c s' => Char.isspace c && blank s'
  end.

(** ** slack_notifier/__init__.py

    The Slack Web API is a server that answers each request given the
    requests it has seen before; an answer is the decoded JSON reply, or an
    exception ([requests.post] or [resp.json()] raised). *)

Module Slack.

Definition ENV_BOT_TOKEN : string := "SLACK_BOT_TOKEN".
Definition ENV_USER_ID : string := "SLACK_USER_ID".
Definition ENV_CHANNEL : string := "SLACK_CHANNEL".

(** [os.environ] *)
Definition Env : Type := string -> option string.

(** The truth value of an [Optional[str]]: [None] and the empty string are
    false. *)
Definition truthy (o : option string) : bool :=
  match o with
  | Some s => negb (Str.is_empty s)
  | None => false
  end.

(** [a or b] *)
Definition py_or (a b : option string) : option string :=
  if truthy a then a else b.

Record SlackBotClient : Type := mkClient {
  bot_token : string;
  dm_user_id : option string;
  channel : option string;
  _dm_channel_id : option string
}.

Definition __init__ (bot_token : string) (dm_user_id channel : option string)
  : SlackBotClient :=
  mkClient bot_token dm_user_id channel None.

(** [os.environ[key]]: a missing key raises [KeyError(key)]. *)
Definition environ_item (env : Env) (key : string) : result string :=
  match env key with
  | Some v => Ok v
  | None => Raise ("'" ++ key ++ "'")
  end.

Definition from_env (env : Env) (bot_token dm_user_id channel : option string)
  : result SlackBotClient :=
  token <- match bot_token with
           | Some t => if Str.is_empty t then environ_item env ENV_BOT_TOKEN else Ok t
           | None => environ_item env ENV_BOT_TOKEN
           end ;;
  Ok (__init__ token (py_or dm_user_id (env ENV_USER_ID))
                     (py_or channel (env ENV_CHANNEL))).

(** The two calls of the client, with what they carry: the bearer token
    and the JSON body. *)
Inductive Request : Type :=
| ChatPostMessage (token channel text : string)
| ConversationsOpen (token : string) (users : list string).

(** What the client reads in a decoded reply: the truth value of
    [data.get("ok")], [data.get("error")] and [data["channel"]["id"]],
    which raises when a key is missing. *)
Record Reply : Type := mkReply {
  ok : bool;
  error : option string;
  channel_id : result string
}.

(** The client object, the server, the requests sent so far and the
    records of [logger.error]. *)
Record State : Type := mkState {
  client : SlackBotClient;
  server : list Request -> Request -> result Reply;
  sent : list Request;
  errors : list string
}.

Definition log_error (msg : string) (s : State) : State :=
  mkState (client s) (server s) (sent s) (errors s ++ [msg])%list.

Definition set_dm_channel_id (id : string) (s : State) : State :=
  mkState (mkClient (bot_token (client s)) (dm_user_id (client s))
                    (channel (client s)) (Some id))
          (server s) (sent s) (errors s).

(** [requests.post(...)] followed by [resp.json()]. *)
Definition http_post (req : Request) (s : State) : result Reply * State :=
  (server s (sent s) req,
   mkState (client s) (server s) (sent s ++ [req])%list (errors s)).

(** [data.get("error", "unknown")] *)
Definition error_text (data : Reply) : string :=
  match error data with Some e => e | None => "unknown" end.

Definition _get_dm_channel (s : State) : option string * State :=
  if negb (truthy (dm_user_id (client s))) then
    (None, log_error "dm_user_id required for DM mode" s)
  else if truthy (_dm_channel_id (client s)) then
    (_dm_channel_id (client s), s)
  else
    let uid := match dm_user_id (client s) with Some u => u | None => "" end in
    let (resp, s1) :=
      http_post (ConversationsOpen (bot_token (client s)) [uid]) s in
    match resp with
    | Raise e => (None, log_error ("Slack conversations.open failed: " ++ e) s1)
    | Ok data =>
        if negb (ok data) then
          (None, log_error ("Slack conversations.open failed: " ++ error_text data) s1)
        else
          match channel_id data with
          | Raise e =>
              (None, log_error ("Slack conversations.open failed: " ++ e) s1)
          | Ok id => (Some id, set_dm_channel_id id s1)
          end
    end.

Definition _get_channel (s : State) : option string * State :=
  if truthy (channel (client s)) then (channel (client s), s)
  else _get_dm_channel s.

Definition post (text : string) (ping_user_id : option string) (s : State)
  : bool * State :=
  let ping :=
    py_or ping_user_id
          (if truthy (channel (client s)) then dm_user_id (client s) else None) in
  let text :=
    match ping with
    | Some p => if Str.is_empty p then text else "<@" ++ p ++ "> " ++ text
    | None => text
    end in
  let (channel_id, s1) := _get_channel s in
  match channel_id with
  | None => (false, s1)
  | Some id =>
      if Str.is_empty id then (false, s1)
      else
        let (resp, s2) :=
          http_post (ChatPostMessage (bot_token (client s1)) id text) s1 in
        match resp with
        | Raise e => (false, log_error ("Slack post failed: " ++ e) s2)
        | Ok data =>
            if negb (ok data) then
              (false, log_error ("Slack chat.postMessage failed: " ++ error_text data) s2)
            else (true, s2)
        end
  end.

End Slack.

(** ** The loop of [main] *)

Module Main.

(** The [for] loop of [main] with the Slack client in place of the list
    of handed-over messages. *)
Fixpoint poll_slack (channel : string) (courses : list (string * string))
         (w : World) (s : Slack.State) : World * Slack.State :=
  match courses with
  | [] => (w, s)
  | (label, class_code) :: rest =>
      let '((status, _), w1) := Monitor.get_course_availability w label class_code in
      if Monitor.available status then
        let w2 := logger INFO ("Posting " ++ status ++ " to " ++ channel) w1 in
        let (_, s2) := Slack.post ("*" ++ status ++ "*") None s in
        poll_slack channel rest w2 s2
      else poll_slack channel rest w1 s
  end.


End Main.

(** ** Further vocabulary *)

(** Every character of [s] is a decimal digit. *)
Fixpoint digits (s : string) : bool :=
  match s with
  | EmptyString => true
  | String c s' => Char.isdigit c && digits s'
  end.

(** The content lines of a block: all but the header and the code line. *)
Definition content_lines (block : string) : list string :=
  skipn 2 (Str.split_lines (Str.strip block)).

(** The request that carries [msg] to [channel] for a client in channel
    mode: the user is pinged when there is one. *)
Definition channel_request (c : Slack.SlackBotClient) (channel msg : string)
  : Slack.Request :=
  Slack.ChatPostMessage (Slack.bot_token c) channel
    (if Slack.truthy (Slack.dm_user_id c)
     then "<@" ++ match Slack.dm_user_id c with Some u => u | None => "" end
               ++ "> " ++ msg
     else msg).

(** The bearer token a request carries. *)
Definition token_of (req : Slack.Request) : string :=
  match req with
  | Slack.ChatPostMessage token _ _ => token
  | Slack.ConversationsOpen token _ => token
  end.

Definition is_message (req : Slack.Request) : bool :=
  match req with
  | Slack.ChatPostMessage _ _ _ => true
  | Slack.ConversationsOpen _ _ => false
  end.

(** The environment [main] asks for: a channel, a token and a user. *)
Definition env_main (key : string) : option string :=
  if String.eqb key "SLACK_CHANNEL" then Some "#ucla"
  else if String.eqb key "SLACK_BOT_TOKEN" then Some "xoxb-1"
  else if String.eqb key "SLACK_USER_ID" then Some "U07"
  else None.

(** A server that opens the conversation D1 and accepts every message. *)
Definition friendly_server (_ : list Slack.Request) (req : Slack.Request)
  : result Slack.Reply :=
  match req with
  | Slack.ConversationsOpen _ _ => Ok (Slack.mkReply true None (Ok "D1"))
  | Slack.ChatPostMessage _ _ _ => Ok (Slack.mkReply true None (Raise "'channel'"))
  end.

(** A server that is down. *)
Definition dead_server (_ : list Slack.Request) (_ : Slack.Request)
  : result Slack.Reply :=
  Raise "connection refused".


(** Settles [no_overlap] for a literal pattern and suffix, one split of
    the pattern at a time. *)
Ltac overlap :=
  let p1 := fresh "p" in
  let p2 := fresh "q" in
  let E := fresh "E" in
  let H := fresh "H" in
  intros p1 p2 E H;
  repeat (destruct p1 as [|? p1]; cbn [append] in E;
          [ subst p2; first [reflexivity | vm_compute in H; discriminate]
          | first [discriminate | injection E as _ E] ]);
  try discriminate.

(** ** Strings *)

Section StringFacts.

Lemma app_nil_r (s : string) : s ++ "" = s.
Proof. induction s; simpl; congruence. Qed.

Lemma app_assoc (a b c : string) : (a ++ b) ++ c = a ++ b ++ c.
Proof. induction a; simpl; congruence. Qed.

Lemma length_app (a b : string) :
  String.length (a ++ b) = String.length a + String.length b.
Proof. induction a; simpl; auto. Qed.

Lemma startswith_app (p y : string) : Str.startswith (p ++ y) p = true.
Proof.
  induction p as [|c p IH]; simpl; [reflexivity|].
  now rewrite Ascii.eqb_refl.
Qed.

Lemma startswith_split (s p : string) :
  Str.startswith s p = true -> exists y, s = p ++ y.
Proof.
  revert s; induction p as [|c p IH]; intros s H; simpl in *.
  - now exists s.
  - destruct s as [|b s]; [discriminate|].
    apply andb_true_iff in H as [Hc Hp].
    apply Ascii.eqb_eq in Hc; subst b.
    destruct (IH _ Hp) as [y ->]. now exists y.
Qed.

Lemma lit_split (p s r : string) : Re.lit p s = Some r -> s = p ++ r.
Proof.
  revert s; induction p as [|c p IH]; intros s H; simpl in *.
  - now inversion H.
  - destruct s as [|b s]; [discriminate|].
    destruct (Ascii.eqb c b) eqn:E; [|discriminate].
    apply Ascii.eqb_eq in E; subst b. simpl. f_equal. auto.
Qed.

Lemma lit_startswith (p s r : string) :
  Re.lit p s = Some r -> Str.startswith s p = true.
Proof. intros H. rewrite (lit_split _ _ _ H). apply startswith_app. Qed.

Lemma contains_here (p s : string) :
  Str.startswith s p = true -> Str.contains p s = true.
Proof. intros H. destruct s; simpl in *; rewrite H; reflexivity. Qed.

Lemma contains_later (p : string) (c : ascii) (s : string) :
  Str.contains p s = true -> Str.contains p (String c s) = true.
Proof. intros H. cbn [Str.contains]. rewrite H. apply orb_true_r. Qed.

Lemma contains_complete (p s : string) : Substr p s -> Str.contains p s = true.
Proof.
  intros (x & y & ->). induction x as [|c x IH]; cbn [append].
  - apply contains_here, startswith_app.
  - now apply contains_later.
Qed.

Lemma contains_sound (p s : string) : Str.contains p s = true -> Substr p s.
Proof.
  induction s as [|c s IH]; cbn [Str.contains]; intros H.
  - rewrite orb_false_r in H. destruct (startswith_split _ _ H) as [y ->].
    now exists "", y.
  - apply orb_true_iff in H as [H|H].
    + destruct (startswith_split _ _ H) as [y ->]. now exists "", y.
    + destruct (IH H) as (x & y & ->). now exists (String c x), y.
Qed.

Lemma Substr_refl (s : string) : Substr s s.
Proof. exists "", "". simpl. now rewrite app_nil_r. Qed.

Lemma Substr_trans (a b c : string) : Substr a b -> Substr b c -> Substr a c.
Proof.
  intros (x & y & ->) (x' & y' & ->).
  exists (x' ++ x), (y ++ y'). now rewrite !app_assoc.
Qed.

Lemma search_found {A : Type} (f : string -> option A) (s : string) (a : A) :
  Re.search f s = Some a -> exists i, f (skip i s) = Some a.
Proof.
  induction s as [|c s IH]; cbn [Re.search]; intros H.
  - exists 0. simpl. destruct (f ""); [assumption|discriminate].
  - destruct (f (String c s)) eqn:E.
    + exists 0. simpl. congruence.
    + destruct (IH H) as [i Hi]. now exists (S i).
Qed.

Lemma Substr_skip (p : string) (i : nat) (s : string) :
  Substr p (skip i s) -> Substr p s.
Proof.
  revert s; induction i as [|i IH]; intros [|c s]; simpl; auto.
  intros H. destruct (IH _ H) as (x & y & ->). now exists (String c x), y.
Qed.

End StringFacts.

(** ** The status classifier *)

Section Classifier.

Import Monitor.

Lemma is_closed_row_iff (row : string) :
  is_closed_row (Str.lower row) = true <-> closed_signal row.
Proof. unfold is_closed_row, closed_signal. apply orb_true_iff. Qed.

Lemma not_closed_row (row : string) :
  ~ closed_signal row -> is_closed_row (Str.lower row) = false.
Proof.
  intros H. destruct (is_closed_row (Str.lower row)) eqn:E; [|reflexivity].
  now apply is_closed_row_iff in E.
Qed.

Lemma search_lit_contains {A : Type} (f : string -> option A) (p t : string) (a : A) :
  (forall s b, f s = Some b -> exists r, Re.lit p s = Some r) ->
  Re.search f t = Some a -> Str.contains p t = true.
Proof.
  intros Hf H. destruct (search_found _ _ _ H) as [i Hi].
  destruct (Hf _ _ Hi) as [r Hr].
  apply contains_complete, (Substr_skip _ i).
  rewrite (lit_split _ _ _ Hr). now exists "", r.
Qed.

Lemma open_at_lit (s : string) (m : string * string) :
  Re.open_at s = Some m -> exists r, Re.lit "open:" s = Some r.
Proof.
  unfold Re.open_at. destruct (Re.lit "open:" s) as [r|]; [eauto|discriminate].
Qed.

Lemma waitlist_at_lit (s : string) (m : string * string) :
  Re.waitlist_at s = Some m -> exists r, Re.lit "waitlist" s = Some r.
Proof.
  unfold Re.waitlist_at. destruct (Re.lit "waitlist" s) as [r|]; [eauto|discriminate].
Qed.

Lemma int_within (digits : string) :
  within_limit (Some digits) = true ->
  Str.int_of_digits digits = Ok (Str.digits_value digits).
Proof.
  unfold within_limit, Str.int_of_digits. intros H.
  rewrite Nat.ltb_antisym, H. reflexivity.
Qed.

Lemma int_beyond (digits : string) :
  within_limit (Some digits) = false ->
  Str.int_of_digits digits = Raise (Str.int_limit_error (String.length digits)).
Proof.
  unfold within_limit, Str.int_of_digits. intros H.
  rewrite Nat.ltb_antisym, H. reflexivity.
Qed.

(** What the two conversions of a row do to a list of counts. *)
Lemma add_open_capture (row : string) (acc : list N) :
  add_open (Str.lower row) acc =
  match open_capture row with
  | Some digits => n <- Str.int_of_digits digits ;; Ok (acc ++ [n])%list
  | None => Ok acc
  end.
Proof.
  unfold add_open, open_capture.
  destruct (Re.search Re.open_at (Str.lower row)) as [[g r]|] eqn:E; simpl.
  - now rewrite (search_lit_contains _ _ _ _ open_at_lit E).
  - now destruct (Str.contains _ _).
Qed.

Lemma add_waitlist_capture (row : string) (acc : list N) :
  add_waitlist (Str.lower row) acc =
  match waitlist_capture row with
  | Some digits => n <- Str.int_of_digits digits ;; Ok (acc ++ [n])%list
  | None => Ok acc
  end.
Proof.
  unfold add_waitlist, waitlist_capture.
  destruct (Re.search Re.waitlist_at (Str.lower row)) as [[g r]|] eqn:E; simpl.
  - now rewrite (search_lit_contains _ _ _ _ waitlist_at_lit E).
  - now destruct (Str.contains _ _).
Qed.

Lemma add_open_ok (row : string) (acc : list N) :
  within_limit (open_capture row) = true ->
  add_open (Str.lower row) acc = Ok (acc ++ one (open_count row))%list.
Proof.
  intros H. rewrite add_open_capture. unfold open_count.
  destruct (open_capture row) as [g|]; cbn [option_map one bind].
  - now rewrite (int_within _ H).
  - now rewrite List.app_nil_r.
Qed.

Lemma add_waitlist_ok (row : string) (acc : list N) :
  within_limit (waitlist_capture row) = true ->
  add_waitlist (Str.lower row) acc = Ok (acc ++ one (waitlist_count row))%list.
Proof.
  intros H. rewrite add_waitlist_capture. unfold waitlist_count.
  destruct (waitlist_capture row) as [g|]; cbn [option_map one bind].
  - now rewrite (int_within _ H).
  - now rewrite List.app_nil_r.
Qed.

(** One turn of the loop on a row without closed signal: the counts are
    appended, or the first conversion that fails raises. *)
Lemma status_loop_step (row : string) (rest : list string) (o w : list N) :
  ~ closed_signal row -> ints_ok row = true ->
  status_loop (row :: rest) o w =
  status_loop rest (o ++ one (open_count row)) (w ++ one (waitlist_count row)).
Proof.
  intros Hno Hok. apply andb_true_iff in Hok as [H1 H2].
  cbn [status_loop]. rewrite (not_closed_row _ Hno).
  now rewrite (add_open_ok _ _ H1), (add_waitlist_ok _ _ H2).
Qed.

Lemma status_loop_step_raise (row : string) (rest : list string) (o w : list N) :
  ~ closed_signal row -> ints_ok row = false ->
  exists e, row_error row = Some e /\ status_loop (row :: rest) o w = Raise e.
Proof.
  intros Hno Hok. cbn [status_loop]. rewrite (not_closed_row _ Hno).
  rewrite add_open_capture, add_waitlist_capture.
  unfold ints_ok in Hok. unfold row_error.
  destruct (open_capture row) as [g|].
  - destruct (within_limit (Some g)) eqn:Hg.
    + rewrite (int_within _ Hg). cbn [bind andb] in *.
      destruct (waitlist_capture row) as [g'|]; [|discriminate].
      rewrite (int_beyond _ Hok).
      destruct (within_limit (Some g')); [discriminate|]. cbn [bind]. eauto.
    + rewrite (int_beyond _ Hg). cbn [bind]. eauto.
  - change (within_limit None) with true in Hok. cbn [andb bind] in *.
    destruct (waitlist_capture row) as [g'|]; [|discriminate].
    rewrite (int_beyond _ Hok).
    destruct (within_limit (Some g')); [discriminate|]. cbn [bind]. eauto.
Qed.

(** Without a closed signal and with counts that [int] accepts, the loop
    runs to its end and has then collected every captured count, in row
    order. *)
Lemma status_loop_collects (rows : list string) :
  (forall row, In row rows -> ~ closed_signal row /\ ints_ok row = true) ->
  forall open_seats waitlist_seats,
    status_loop rows open_seats waitlist_seats =
    status_loop [] (open_seats ++ captured open_count rows)
                   (waitlist_seats ++ captured waitlist_count rows).
Proof.
  induction rows as [|row rows IH]; intros Hno o w.
  - cbn [captured flat_map]. now rewrite !List.app_nil_r.
  - destruct (Hno row (or_introl eq_refl)) as [Hc Hi].
    rewrite (status_loop_step _ _ _ _ Hc Hi).
    rewrite IH by (intros r Hr; apply Hno; now right).
    cbn [captured flat_map]. now rewrite <- !List.app_assoc.
Qed.

Lemma max_of_upper (xs : list N) (x : N) :
  (x <= max_of x xs)%N /\ forall n, In n xs -> (n <= max_of x xs)%N.
Proof.
  unfold max_of. revert x; induction xs as [|y xs IH]; intros x; simpl.
  - split; [lia|contradiction].
  - destruct (IH (N.max x y)) as [H1 H2]. split; [lia|].
    intros n [<-|Hn]; [lia|auto].
Qed.

Lemma max_of_in (xs : list N) (x : N) : In (max_of x xs) (x :: xs).
Proof.
  unfold max_of. revert x; induction xs as [|y xs IH]; intros x; simpl.
  - now left.
  - destruct (IH (N.max x y)) as [H|H].
    + destruct (N.max_spec x y) as [[_ E]|[_ E]]; rewrite E in *; cbn [In]; tauto.
    + cbn [In]; tauto.
Qed.

(** The loop returns closed at a closed row when the conversions of the
    rows before it went through. *)
Lemma status_loop_closed (pre : list string) (row : string) (post : list string) :
  (forall r, In r pre -> ints_ok r = true) ->
  closed_signal row ->
  forall open_seats waitlist_seats,
    status_loop (pre ++ row :: post) open_seats waitlist_seats = Ok ("closed", None).
Proof.
  intros Hpre Hc. induction pre as [|r pre IH]; intros o w.
  - cbn [List.app status_loop]. apply is_closed_row_iff in Hc. now rewrite Hc.
  - destruct (is_closed_row (Str.lower r)) eqn:E.
    + cbn [List.app status_loop]. now rewrite E.
    + assert (Hr : ~ closed_signal r)
        by (intros H; apply is_closed_row_iff in H; congruence).
      cbn [List.app]. rewrite (status_loop_step _ _ _ _ Hr (Hpre r (or_introl eq_refl))).
      apply IH. intros r' Hr'. apply Hpre. now right.
Qed.

(** The loop raises at the first row whose conversion fails when no
    closed row comes before it. *)
Lemma status_loop_raises (pre : list string) (row : string) (post : list string) :
  (forall r, In r pre -> ~ closed_signal r /\ ints_ok r = true) ->
  ~ closed_signal row -> ints_ok row = false ->
  forall open_seats waitlist_seats,
    exists e, row_error row = Some e
              /\ status_loop (pre ++ row :: post) open_seats waitlist_seats = Raise e.
Proof.
  intros Hpre Hc Hi. induction pre as [|r pre IH]; intros o w.
  - cbn [List.app]. now apply status_loop_step_raise.
  - destruct (Hpre r (or_introl eq_refl)) as [Hrc Hri].
    cbn [List.app]. rewrite (status_loop_step _ _ _ _ Hrc Hri).
    apply IH. intros r' Hr'. apply Hpre. now right.
Qed.

(** The three ways the loop can go. *)
Lemma rows_cases (rows : list string) :
  (exists pre row post,
      rows = (pre ++ row :: post)%list
      /\ (forall r, In r pre -> ~ closed_signal r /\ ints_ok r = true)
      /\ closed_signal row)
  \/ (exists pre row post,
         rows = (pre ++ row :: post)%list
         /\ (forall r, In r pre -> ~ closed_signal r /\ ints_ok r = true)
         /\ ~ closed_signal row /\ ints_ok row = false)
  \/ (forall r, In r rows -> ~ closed_signal r /\ ints_ok r = true).
Proof.
  induction rows as [|row rows IH].
  - right; right. intros r [].
  - destruct (is_closed_row (Str.lower row)) eqn:Ec.
    { left. exists [], row, rows. split; [reflexivity|]. split; [intros r []|].
      now apply is_closed_row_iff. }
    assert (Hc : ~ closed_signal row)
      by (intros H; apply is_closed_row_iff in H; congruence).
    destruct (ints_ok row) eqn:Ei.
    2:{ right; left. exists [], row, rows. split; [reflexivity|].
        split; [intros r []|auto]. }
    assert (Hcons : forall pre, (forall r, In r pre -> ~ closed_signal r /\ ints_ok r = true) ->
                    forall r, In r (row :: pre) -> ~ closed_signal r /\ ints_ok r = true)
      by (intros pre Hp r [<-|Hr]; auto).
    destruct IH as [(pre & r & post & -> & Hp & H)|[(pre & r & post & -> & Hp & H)|H]].
    + left. exists (row :: pre), r, post.
      split; [reflexivity|]. split; [now apply Hcons|exact H].
    + right; left. exists (row :: pre), r, post.
      split; [reflexivity|]. split; [now apply Hcons|exact H].
    + right; right. now apply Hcons.
Qed.

End Classifier.

(** ** Trimming and line splitting *)

Section Trimming.

Lemma lstrip_split (s : string) : exists ws, s = ws ++ Str.lstrip s.
Proof.
  induction s as [|c s [ws IH]]; simpl.
  - now exists "".
  - destruct (Char.isspace c).
    + exists (String c ws). simpl. now f_equal.
    + now exists "".
Qed.

Lemma rstrip_split (s : string) : exists ws, s = Str.rstrip s ++ ws.
Proof.
  induction s as [|c s [ws IH]]; simpl.
  - now exists "".
  - destruct (Str.rstrip s) as [|d r] eqn:E.
    + destruct (Char.isspace c).
      * exists (String c ws). simpl in *. now f_equal.
      * exists ws. simpl in *. now f_equal.
    + exists ws. simpl in *. now f_equal.
Qed.

Lemma strip_split (s : string) : exists a b, s = a ++ Str.strip s ++ b.
Proof.
  unfold Str.strip. destruct (lstrip_split s) as [a Ha].
  destruct (rstrip_split (Str.lstrip s)) as [b Hb].
  exists a, b. now rewrite <- Hb.
Qed.

Lemma strip_Substr (s : string) : Substr (Str.strip s) s.
Proof. destruct (strip_split s) as (a & b & H). now exists a, b. Qed.

Lemma lstrip_head (s : string) (c : ascii) (r : string) :
  Str.lstrip s = String c r -> Char.isspace c = false.
Proof.
  induction s as [|d s IH]; simpl; [discriminate|].
  destruct (Char.isspace d) eqn:E; [assumption|].
  intros H. inversion H. now subst.
Qed.

Lemma rstrip_head (c : ascii) (s : string) :
  Char.isspace c = false -> exists r, Str.rstrip (String c s) = String c r.
Proof.
  intros H. simpl. rewrite H. destruct (Str.rstrip s); eauto.
Qed.

(** A trimmed string is empty or starts with a visible character. *)
Lemma strip_head (s : string) (c : ascii) (r : string) :
  Str.strip s = String c r -> Char.isspace c = false.
Proof.
  unfold Str.strip. destruct (Str.lstrip s) as [|d t] eqn:E; simpl; [discriminate|].
  pose proof (lstrip_head _ _ _ E) as Hd.
  destruct (rstrip_head d t Hd) as [r' Hr]. simpl in Hr. rewrite Hr.
  intros H. inversion H. now subst.
Qed.

Lemma rstrip_idem (s : string) : Str.rstrip (Str.rstrip s) = Str.rstrip s.
Proof.
  induction s as [|c s IH]; simpl; [reflexivity|].
  destruct (Str.rstrip s) as [|d r] eqn:E.
  - destruct (Char.isspace c) eqn:Ec; simpl; [reflexivity|]. now rewrite Ec.
  - simpl. simpl in IH. now rewrite IH.
Qed.

Lemma lstrip_visible (c : ascii) (s : string) :
  Char.isspace c = false -> Str.lstrip (String c s) = String c s.
Proof. intros H. simpl. now rewrite H. Qed.

Lemma strip_idem (s : string) : Str.strip (Str.strip s) = Str.strip s.
Proof.
  destruct (Str.strip s) as [|c r] eqn:E; [reflexivity|].
  unfold Str.strip at 1. rewrite (lstrip_visible _ _ (strip_head _ _ _ E)).
  rewrite <- E. unfold Str.strip. apply rstrip_idem.
Qed.

Lemma split_lines_nonempty (s : string) : Str.split_lines s <> [].
Proof.
  induction s as [|c s IH]; simpl; [discriminate|].
  destruct (Ascii.eqb c Char.newline); [discriminate|].
  destruct (Str.split_lines s); discriminate.
Qed.

Lemma split_lines_app (a b : string) :
  List.length (Str.split_lines (a ++ b)) + 1 =
  List.length (Str.split_lines a) + List.length (Str.split_lines b).
Proof.
  induction a as [|c a IH]; simpl.
  - lia.
  - destruct (Ascii.eqb c Char.newline); simpl; [lia|].
    pose proof (split_lines_nonempty (a ++ b)).
    pose proof (split_lines_nonempty a).
    destruct (Str.split_lines (a ++ b)), (Str.split_lines a); simpl in *;
      try congruence; lia.
Qed.

Lemma split_lines_pos (s : string) : 1 <= List.length (Str.split_lines s).
Proof.
  pose proof (split_lines_nonempty s). destruct (Str.split_lines s); simpl;
    [congruence|lia].
Qed.

(** Trimming never adds a line. *)
Lemma strip_lines_le (s : string) :
  List.length (Str.split_lines (Str.strip s)) <= List.length (Str.split_lines s).
Proof.
  destruct (strip_split s) as (a & b & H). rewrite H at 2.
  pose proof (split_lines_app a (Str.strip s ++ b)).
  pose proof (split_lines_app (Str.strip s) b).
  pose proof (split_lines_pos a). pose proof (split_lines_pos b). lia.
Qed.

Lemma split_lines_first (s l : string) (ls : list string) :
  Str.split_lines s = l :: ls -> exists y, s = l ++ y.
Proof.
  revert l ls; induction s as [|c s IH]; simpl; intros l ls H.
  - inversion H. now exists "".
  - destruct (Ascii.eqb c Char.newline).
    + inversion H. now exists (String c s).
    + destruct (Str.split_lines s) as [|l' ls'] eqn:E.
      * now destruct (split_lines_nonempty s).
      * inversion H; subst. destruct (IH _ _ eq_refl) as [y Hy].
        exists y. simpl. now f_equal.
Qed.

Lemma split_lines_Substr (s line : string) :
  In line (Str.split_lines s) -> Substr line s.
Proof.
  revert line; induction s as [|c s IH]; simpl; intros line H.
  - destruct H as [<-|[]]. apply Substr_refl.
  - destruct (Ascii.eqb c Char.newline).
    + destruct H as [<-|H].
      * now exists "", (String c s).
      * destruct (IH _ H) as (x & y & ->). now exists (String c x), y.
    + destruct (Str.split_lines s) as [|l ls] eqn:E.
      * now destruct (split_lines_nonempty s).
      * destruct H as [<-|H].
        -- destruct (split_lines_first _ _ _ E) as [y ->]. now exists "", y.
        -- destruct (IH _ (or_intror H)) as (x & y & ->).
           now exists (String c x), y.
Qed.

End Trimming.

(** ** The course matcher *)

Section Matcher.

Import Monitor.

Lemma lit_app (p r : string) : Re.lit p (p ++ r) = Some r.
Proof.
  induction p as [|c p IH]; simpl; [reflexivity|]. now rewrite Ascii.eqb_refl.
Qed.

Lemma span_split (p : ascii -> bool) (s : string) :
  s = fst (Str.span p s) ++ snd (Str.span p s).
Proof.
  induction s as [|c s IH]; simpl; [reflexivity|].
  destruct (p c); [|reflexivity].
  destruct (Str.span p s) as [a b]. simpl in *. now f_equal.
Qed.

Lemma span_blank (s : string) : blank (fst (Str.span Char.isspace s)) = true.
Proof.
  induction s as [|c s IH]; simpl; [reflexivity|].
  destruct (Char.isspace c) eqn:E; [|reflexivity].
  destruct (Str.span Char.isspace s) as [a b]. simpl in *. now rewrite E.
Qed.

Lemma span_blank_then (ws : string) (c : ascii) (r : string) :
  blank ws = true -> Char.isspace c = false ->
  Str.span Char.isspace (ws ++ String c r) = (ws, String c r).
Proof.
  intros Hws Hc. induction ws as [|d ws IH]; simpl in *.
  - now rewrite Hc.
  - apply andb_true_iff in Hws as [Hd Hws]. rewrite Hd, (IH Hws). reflexivity.
Qed.

Lemma dash_visible : Char.isspace "-" = false.
Proof. reflexivity. Qed.

Lemma code_dash_iff (code s : string) :
  Re.code_dash code s = true <->
  exists ws r, s = code ++ ws ++ "-" ++ r /\ blank ws = true.
Proof.
  unfold Re.code_dash. split.
  - destruct (Re.lit code s) as [t|] eqn:E; [|discriminate].
    apply lit_split in E. subst s.
    pose proof (span_split Char.isspace t) as Ht.
    pose proof (span_blank t) as Hb.
    destruct (Str.span Char.isspace t) as [ws u]. simpl in *.
    destruct u as [|c u]; [discriminate|]. intros Hc.
    apply Ascii.eqb_eq in Hc. subst c. exists ws, u. now rewrite Ht.
  - intros (ws & r & -> & Hb). rewrite lit_app.
    change (ws ++ "-" ++ r) with (ws ++ String "-" r).
    rewrite (span_blank_then _ _ _ Hb dash_visible). reflexivity.
Qed.

(** On a trimmed line the leading blanks of the pattern match nothing. *)
Lemma match_code_strip (code l : string) :
  Re.match_code code (Str.strip l) = Re.code_dash code (Str.strip l).
Proof.
  destruct (Str.strip l) as [|c r] eqn:E; simpl.
  - apply orb_false_r.
  - rewrite (strip_head _ _ _ E). apply orb_false_r.
Qed.

Lemma matches_iff (block class_code : string) :
  _block_matches_class_code block class_code = true <->
  exists l0 l1 rest,
    Str.split_lines (Str.strip block) = l0 :: l1 :: rest /\
    exists ws r, Str.strip l1 = class_code ++ ws ++ "-" ++ r /\ blank ws = true.
Proof.
  unfold _block_matches_class_code.
  destruct (Str.split_lines (Str.strip block)) as [|l0 [|l1 rest]].
  - split; [discriminate|]. intros (? & ? & ? & H & _). discriminate.
  - split; [discriminate|]. intros (? & ? & ? & H & _). discriminate.
  - rewrite match_code_strip, code_dash_iff. split.
    + intros H. now exists l0, l1, rest.
    + intros (? & ? & ? & H & H'). now inversion H; subst.
Qed.

Lemma matches_short (block class_code : string) :
  List.length (Str.split_lines block) < 2 ->
  _block_matches_class_code block class_code = false.
Proof.
  intros H. pose proof (strip_lines_le block) as Hle.
  unfold _block_matches_class_code.
  destruct (Str.split_lines (Str.strip block)) as [|l0 [|l1 rest]];
    try reflexivity.
  simpl in Hle. lia.
Qed.

(** Induction two elements at a time, as the loop over the parts goes. *)
Lemma pairs_ind {A : Type} (P : list A -> Prop) :
  P [] -> (forall a, P [a]) -> (forall a b l, P l -> P (a :: b :: l)) ->
  forall l, P l.
Proof.
  intros H0 H1 H2 l.
  enough (H : P l /\ forall a, P (a :: l)) by apply H.
  induction l as [|b l [IHl IHc]]; split; auto.
Qed.

Lemma blocks_loop_trimmed (parts : list string) (block : string) :
  In block (blocks_loop parts) -> exists x, block = Str.strip x.
Proof.
  induction parts as [|h|h c rest IH] using pairs_ind; simpl.
  - contradiction.
  - intros [<-|[]]. eauto.
  - intros [<-|H]; eauto.
Qed.

Lemma class_blocks_trimmed (page_text block : string) :
  In block (_get_class_blocks page_text) -> Str.strip block = block.
Proof.
  intros H. destruct (blocks_loop_trimmed _ _ H) as [x ->]. apply strip_idem.
Qed.

End Matcher.

(** ** The section row extractor *)

Section Rows.

Import Monitor.

Lemma lower_app (a b : string) : Str.lower (a ++ b) = Str.lower a ++ Str.lower b.
Proof. induction a; simpl; congruence. Qed.

Lemma startswith_app_l (a b p : string) :
  Str.startswith a p = true -> Str.startswith (a ++ b) p = true.
Proof.
  intros H. destruct (startswith_split _ _ H) as [y ->].
  rewrite app_assoc. apply startswith_app.
Qed.

Lemma starts_lec_lab_app (a b : string) :
  starts_lec_lab a = true -> starts_lec_lab (a ++ b) = true.
Proof.
  unfold starts_lec_lab. rewrite lower_app. intros H.
  apply orb_true_iff in H as [H|H];
    rewrite (startswith_app_l _ _ _ H); auto using orb_true_r.
Qed.

Lemma starts_l_not_dis (s : string) :
  Str.startswith s "lec " = true \/ Str.startswith s "lab " = true ->
  Str.startswith s "dis " = false.
Proof.
  destruct s as [|c s]; cbn [Str.startswith]; [reflexivity|].
  intros [H|H]; apply andb_true_iff in H as [H _];
    apply Ascii.eqb_eq in H; subst c; reflexivity.
Qed.

Lemma lec_lab_not_dis (row : string) :
  starts_lec_lab row = true -> Str.startswith (Str.lower row) "dis " = false.
Proof.
  unfold starts_lec_lab. intros H. apply starts_l_not_dis.
  now apply orb_true_iff.
Qed.

Lemma dis_is_section (line : string) :
  Str.startswith (Str.lower line) "dis " = true ->
  starts_section line = true /\ starts_lec_lab line = false
  /\ Str.is_empty line = false.
Proof.
  intros H. unfold starts_section. rewrite H, orb_true_r. repeat split.
  - destruct (starts_lec_lab line) eqn:E; [|reflexivity].
    apply lec_lab_not_dis in E. congruence.
  - destruct line; [discriminate|reflexivity].
Qed.

Lemma lec_lab_nonempty (line : string) :
  starts_lec_lab line = true -> Str.is_empty line = false.
Proof. destruct line; [discriminate|reflexivity]. Qed.

Lemma row_shape_cons (l : string) (ls : list string) (row : string) :
  row_shape ls row -> row_shape (l :: ls) row.
Proof.
  intros (head & Hin & Hl & H). exists head. split; [now right|]. split; [assumption|].
  destruct H as [H|(st & H1 & H2 & H3 & H4)]; [now left|].
  right. exists st. repeat split; auto. now right.
Qed.

Lemma rows_loop_shape_bounded (n : nat) :
  forall content_lines row,
    List.length content_lines <= n ->
    In row (rows_loop content_lines) ->
    row_shape (map Str.strip content_lines) row.
Proof.
  induction n as [|n IH]; intros [|line rest] row Hlen; simpl in *;
    try contradiction; try lia.
  assert (Hrest : In row (rows_loop rest) -> row_shape (Str.strip line :: map Str.strip rest) row).
  { intros H. apply row_shape_cons, IH; [lia|assumption]. }
  destruct (Str.is_empty (Str.strip line)) eqn:Ee; [assumption|].
  destruct (starts_lec_lab (Str.strip line)) eqn:El; [|assumption].
  assert (Hhead : row = Str.strip line -> row_shape (Str.strip line :: map Str.strip rest) row).
  { intros ->. exists (Str.strip line). split; [now left|]. split; [assumption|now left]. }
  destruct rest as [|next rest'].
  - intros [H|[]]. now apply Hhead.
  - destruct (negb (Str.is_empty (Str.strip next)) && negb (starts_section (Str.strip next))) eqn:E.
    + apply andb_true_iff in E as [E1 E2].
      apply negb_true_iff in E1, E2.
      intros [<-|H].
      * exists (Str.strip line). split; [now left|]. split; [assumption|].
        right. exists (Str.strip next). repeat split; auto.
        -- simpl. now right; left.
        -- intros E. rewrite E in E1. discriminate.
      * simpl. do 2 apply row_shape_cons. apply IH; [simpl in Hlen; lia|assumption].
    + intros [<-|H]; [now apply Hhead|now apply Hrest].
Qed.

Lemma rows_loop_shape (content_lines : list string) (row : string) :
  In row (rows_loop content_lines) ->
  row_shape (map Str.strip content_lines) row.
Proof. now apply (rows_loop_shape_bounded (List.length content_lines)). Qed.

Lemma row_shape_lec_lab (stripped : list string) (row : string) :
  row_shape stripped row -> starts_lec_lab row = true.
Proof.
  intros (head & _ & Hl & [->|(st & _ & _ & _ & ->)]); [assumption|].
  now apply starts_lec_lab_app.
Qed.

(** A discussion line after a lecture or lab line is left out of that
    row and dropped. *)
Lemma rows_loop_lec_dis (l1 l2 : string) (rest : list string) :
  starts_lec_lab (Str.strip l1) = true ->
  Str.startswith (Str.lower (Str.strip l2)) "dis " = true ->
  rows_loop (l1 :: l2 :: rest) = Str.strip l1 :: rows_loop rest.
Proof.
  intros H1 H2. destruct (dis_is_section _ H2) as (Hs & Hl & He).
  cbn [rows_loop]. rewrite (lec_lab_nonempty _ H1), H1, Hs, He, Hl.
  now rewrite andb_false_r.
Qed.

End Rows.

(** ** The block segmenter *)

Section Segmenter.

Import Monitor.

Lemma lit_ci_split (p s m r : string) :
  Re.lit_ci p s = Some (m, r) -> s = m ++ r /\ String.length m = String.length p.
Proof.
  revert s m r; induction p as [|a p IH]; intros s m r H; simpl in H.
  - inversion H. now subst.
  - destruct s as [|b s]; [discriminate|].
    destruct (Ascii.eqb (Char.lower a) (Char.lower b)); [|discriminate].
    destruct (Re.lit_ci p s) as [[m' r']|] eqn:E; [|discriminate].
    inversion H; subst. destruct (IH _ _ _ E) as [-> Hl].
    simpl. split; congruence.
Qed.

Lemma match_header_split (s h rest : string) :
  Re.match_header s = Some (h, rest) -> s = h ++ rest /\ 0 < String.length h.
Proof.
  unfold Re.match_header.
  destruct (Re.lit_ci "Class " s) as [[m r1]|] eqn:E; [|discriminate].
  destruct (lit_ci_split _ _ _ _ E) as [-> Hm].
  pose proof (span_split Char.isdigit r1) as H1.
  destruct (Str.span Char.isdigit r1) as [ds r2]. simpl in H1.
  destruct (Str.is_empty ds); [discriminate|].
  destruct r2 as [|c r3]; [discriminate|].
  destruct (Ascii.eqb c ":"); [|discriminate].
  pose proof (span_split Char.isspace r3) as H3.
  destruct (Str.span Char.isspace r3) as [ws r4]. simpl in H3.
  intros H. inversion H; subst h rest. split.
  - rewrite H1, H3, !app_assoc. reflexivity.
  - rewrite length_app, Hm. simpl. lia.
Qed.

Lemma join_split_go (fuel : nat) (pending s : string) :
  join (Re.split_go fuel pending s) = pending ++ s.
Proof.
  revert pending s; induction fuel as [|f IH]; intros p s; simpl.
  - apply app_nil_r.
  - destruct (Re.match_header s) as [[h rest]|] eqn:E.
    + destruct (match_header_split _ _ _ E) as [-> _].
      simpl. fold (join (Re.split_go f "" rest)). now rewrite IH.
    + destruct s as [|c s]; simpl; [reflexivity|].
      rewrite IH, app_assoc. reflexivity.
Qed.

(** The scan does not depend on the fuel once there is enough of it. *)
Lemma split_go_fuel (f f' : nat) :
  forall pending s,
    String.length s < f -> String.length s < f' ->
    Re.split_go f pending s = Re.split_go f' pending s.
Proof.
  revert f'; induction f as [|f IH]; intros [|f'] p s H H'; try lia.
  simpl. destruct (Re.match_header s) as [[h rest]|] eqn:E.
  - destruct (match_header_split _ _ _ E) as [-> Hh].
    rewrite length_app in H, H'. do 2 f_equal. apply IH; lia.
  - destruct s as [|c s]; [reflexivity|]. simpl in H, H'. apply IH; lia.
Qed.

Lemma no_header_tail (c : ascii) (s : string) :
  no_header (String c s) -> no_header s.
Proof. intros H i. apply (H (S i)). Qed.

Lemma split_go_no_header (fuel : nat) :
  forall pending s, no_header s -> Re.split_go fuel pending s = [pending ++ s].
Proof.
  induction fuel as [|f IH]; intros p s H; simpl; [reflexivity|].
  pose proof (H 0) as H0. replace (skip 0 s) with s in H0 by now destruct s.
  rewrite H0. destruct s as [|c s].
  - now rewrite app_nil_r.
  - rewrite (IH _ _ (no_header_tail _ _ H)), app_assoc. reflexivity.
Qed.

Lemma split_go_first (pre : string) :
  forall fuel pending h rest,
    Re.match_header (h ++ rest) = Some (h, rest) ->
    (forall i, i < String.length pre ->
               Re.match_header (skip i (pre ++ h ++ rest)) = None) ->
    String.length (pre ++ h ++ rest) < fuel ->
    Re.split_go fuel pending (pre ++ h ++ rest) =
    (pending ++ pre) :: h :: Re.split_header rest.
Proof.
  induction pre as [|c pre IH]; intros [|f] p h rest Hm Hno Hf; try lia.
  - cbn [append Re.split_go]. rewrite Hm, app_nil_r.
    destruct (match_header_split _ _ _ Hm) as [_ Hh].
    do 2 f_equal. apply split_go_fuel; [|unfold lt; reflexivity].
    cbn [append] in Hf. rewrite length_app in Hf. lia.
  - assert (H0 := Hno 0 ltac:(simpl; lia)). cbn [skip append] in H0.
    cbn [append Re.split_go]. rewrite H0.
    rewrite IH; auto.
    + now rewrite app_assoc.
    + intros i Hi. apply (Hno (S i)). simpl. lia.
    + simpl in Hf. lia.
Qed.

Lemma split_header_first (text pre h rest : string) :
  first_header text pre h rest ->
  Re.split_header text = pre :: h :: Re.split_header rest.
Proof.
  intros (-> & Hm & Hno). unfold Re.split_header at 1.
  now rewrite (split_go_first pre _ "" h rest Hm Hno) by lia.
Qed.

Lemma split_header_no_header (text : string) :
  no_header text -> Re.split_header text = [text].
Proof. intros H. unfold Re.split_header. now rewrite split_go_no_header. Qed.

(** Every text has no header at all or a leftmost one. *)
Lemma header_dichotomy (text : string) :
  no_header text \/ exists pre h rest, first_header text pre h rest.
Proof.
  induction text as [|c text IH].
  - left. intros [|i]; reflexivity.
  - destruct (Re.match_header (String c text)) as [[h rest]|] eqn:E.
    + right. exists "", h, rest.
      destruct (match_header_split _ _ _ E) as [Hs _].
      split; [exact Hs|]. split; [now rewrite <- Hs|]. simpl. lia.
    + destruct IH as [IH|(pre & h & rest & -> & Hm & Hno)].
      * left. intros [|i]; [exact E|apply IH].
      * right. exists (String c pre), h, rest. split; [reflexivity|].
        split; [assumption|]. intros [|i] Hi; [exact E|].
        apply Hno. simpl in Hi. lia.
Qed.

(** The content that goes with a header: the text after it up to the
    next header, or to the end. *)
Lemma split_header_content (rest : string) :
  exists content more,
    Re.split_header rest = content :: more /\
    ((no_header rest /\ content = rest /\ more = []) \/
     exists h' rest', first_header rest content h' rest').
Proof.
  destruct (header_dichotomy rest) as [H|(pre & h & r & H)].
  - exists rest, []. rewrite (split_header_no_header _ H). auto.
  - exists pre, (h :: Re.split_header r).
    rewrite (split_header_first _ _ _ _ H). eauto.
Qed.

Lemma class_blocks_no_header (page_text : string) :
  no_header page_text -> _get_class_blocks page_text = [].
Proof.
  intros H. unfold _get_class_blocks. now rewrite split_header_no_header.
Qed.

Lemma class_blocks_first (page_text pre h rest : string) :
  first_header page_text pre h rest ->
  exists content,
    _get_class_blocks page_text =
      Str.strip (h ++ content) :: _get_class_blocks rest /\
    ((no_header rest /\ content = rest) \/
     exists h' rest', first_header rest content h' rest').
Proof.
  intros H. unfold _get_class_blocks at 1.
  rewrite (split_header_first _ _ _ _ H). cbn [tl].
  destruct (split_header_content rest) as (content & more & E & Hc).
  exists content. rewrite E. cbn [blocks_loop]. split.
  - unfold _get_class_blocks. now rewrite E.
  - destruct Hc as [(? & ? & ?)|?]; auto.
Qed.

End Segmenter.

(** ** The availability lookup *)

Section Lookup.

Import Monitor.

Lemma blocks_loop_Substr (parts : list string) (block : string) :
  In block (blocks_loop parts) ->
  exists x, block = Str.strip x /\ Substr x (join parts).
Proof.
  induction parts as [|h|h c rest IH] using pairs_ind; simpl.
  - contradiction.
  - intros [<-|[]]. exists (h ++ ""). split; [reflexivity|apply Substr_refl].
  - intros [<-|H].
    + exists (h ++ c). split; [reflexivity|].
      exists "", (join rest). simpl. fold (join rest). now rewrite app_assoc.
    + destruct (IH H) as (x & -> & (a & b & E)). exists x. split; [reflexivity|].
      exists (h ++ c ++ a), b. fold (join rest). rewrite E.
      now rewrite !app_assoc.
Qed.

(** Every block is a piece of the page. *)
Lemma class_blocks_Substr (page_text block : string) :
  In block (_get_class_blocks page_text) -> Substr block page_text.
Proof.
  intros H. destruct (blocks_loop_Substr _ _ H) as (x & -> & Hx).
  apply (Substr_trans _ x); [apply strip_Substr|].
  apply (Substr_trans _ _ _ Hx).
  pose proof (join_split_go (S (String.length page_text)) "" page_text) as J.
  fold (Re.split_header page_text) in J. simpl in J.
  destruct (Re.split_header page_text) as [|pre parts]; simpl in *.
  - subst page_text. apply Substr_refl.
  - fold (join parts) in J. exists pre, "". now rewrite app_nil_r.
Qed.

Lemma matches_Substr (block class_code : string) :
  _block_matches_class_code block class_code = true -> Substr class_code block.
Proof.
  intros H. apply matches_iff in H as (l0 & l1 & rest & E & ws & r & E1 & _).
  apply (Substr_trans _ (Str.strip l1)); [exists "", (ws ++ "-" ++ r); exact E1|].
  apply (Substr_trans _ l1); [apply strip_Substr|].
  apply (Substr_trans _ (Str.strip block)); [|apply strip_Substr].
  apply split_lines_Substr. rewrite E. now right; left.
Qed.

Lemma matches_nonempty (block class_code : string) :
  _block_matches_class_code block class_code = true -> block <> "".
Proof. intros H ->. discriminate. Qed.

Lemma take_nonempty (n : nat) (s : string) : s <> "" -> Str.take (S n) s <> "".
Proof. destruct s; [congruence|discriminate]. Qed.

(** A page with a matching block passes the substring pre-filter. *)
Lemma matching_passes_prefilter (page_text class_code first : string) (others : list string) :
  matching page_text class_code = first :: others ->
  Str.contains class_code page_text = true.
Proof.
  intros E. assert (H : In first (matching page_text class_code))
    by (rewrite E; now left).
  apply filter_In in H as [Hin Hm].
  apply contains_complete, (Substr_trans _ first).
  - now apply matches_Substr.
  - now apply class_blocks_Substr.
Qed.

Lemma lookup_no_code (w : World) (page_text label class_code : string) :
  body_text w = Ok page_text ->
  Str.contains class_code page_text = false ->
  lookup w label class_code = Ok (fmt label "NOT FOUND", "").
Proof. intros Hw Hc. unfold lookup. rewrite Hw. simpl. now rewrite Hc. Qed.

Lemma lookup_no_block (w : World) (page_text label class_code : string) :
  body_text w = Ok page_text ->
  matching page_text class_code = [] ->
  lookup w label class_code = Ok (fmt label "NOT FOUND", "").
Proof.
  intros Hw Hm. unfold lookup. rewrite Hw. simpl.
  destruct (Str.contains class_code page_text); simpl; [|reflexivity].
  unfold matching in Hm. now rewrite Hm.
Qed.

Lemma lookup_no_rows (w : World) (page_text label class_code first : string)
      (others : list string) :
  body_text w = Ok page_text ->
  matching page_text class_code = first :: others ->
  flat_map _get_lec_lab_rows (first :: others) = [] ->
  lookup w label class_code = Ok (fmt label "NOT FOUND", Str.take 600 first).
Proof.
  intros Hw Hm Hr. unfold lookup. rewrite Hw. simpl bind.
  rewrite (matching_passes_prefilter _ _ _ _ Hm). simpl negb. cbv iota.
  unfold matching in Hm. rewrite Hm, Hr. reflexivity.
Qed.

Lemma lookup_status (w : World) (page_text label class_code first : string)
      (others : list string) :
  body_text w = Ok page_text ->
  matching page_text class_code = first :: others ->
  flat_map _get_lec_lab_rows (first :: others) <> [] ->
  lookup w label class_code =
  (verdict <- _parse_lec_lab_status (flat_map _get_lec_lab_rows (first :: others)) ;;
   Ok (verdict_label label verdict, Str.take 600 first)).
Proof.
  intros Hw Hm Hr. unfold lookup. rewrite Hw. cbn [bind].
  rewrite (matching_passes_prefilter _ _ _ _ Hm). cbn [negb].
  unfold matching in Hm. rewrite Hm.
  destruct (flat_map _get_lec_lab_rows (first :: others)) as [|r rs] eqn:E;
    [congruence|].
  destruct (_parse_lec_lab_status (r :: rs)) as [[status count]|e];
    [|reflexivity].
  cbn [bind verdict_label].
  destruct (String.eqb status "closed"); [reflexivity|].
  destruct (String.eqb status "open" && is_not_none count); [reflexivity|].
  destruct (String.eqb status "waitlist" && is_not_none count); reflexivity.
Qed.

Lemma availability_raise (w : World) (label class_code e : string) :
  lookup w label class_code = Raise e ->
  get_course_availability w label class_code =
  ((fmt label "ERROR", e),
   logger WARNING ("Extract availability failed for " ++ label ++ ": " ++ e) w).
Proof. intros H. unfold get_course_availability. now rewrite H. Qed.

Lemma availability_ok (w : World) (label class_code : string) (r : string * string) :
  lookup w label class_code = Ok r ->
  get_course_availability w label class_code = (r, w).
Proof. intros H. unfold get_course_availability. now rewrite H. Qed.

End Lookup.

(** ** Results and the notification gate *)

Section Results.

Import Monitor.

Lemma add_open_forms (t : string) (acc : list N) :
  (exists acc', add_open t acc = Ok acc') \/ (exists e, add_open t acc = Raise e).
Proof. destruct (add_open t acc); eauto. Qed.

Lemma status_loop_forms (rows : list string) :
  forall open_seats waitlist_seats,
    (exists e, status_loop rows open_seats waitlist_seats = Raise e)
    \/ status_loop rows open_seats waitlist_seats = Ok ("closed", None)
    \/ (exists n, status_loop rows open_seats waitlist_seats = Ok ("open", Some n))
    \/ (exists n, status_loop rows open_seats waitlist_seats = Ok ("waitlist", Some n)).
Proof.
  induction rows as [|row rows IH]; intros o w; cbn [status_loop].
  - destruct o as [|x xs]; [destruct w as [|y ys]|]; eauto.
  - destruct (is_closed_row (Str.lower row)); [auto|].
    destruct (add_open (Str.lower row) o) as [o'|e]; cbn [bind]; [|eauto].
    destruct (add_waitlist (Str.lower row) w) as [w'|e]; cbn [bind]; [|eauto].
    apply IH.
Qed.

(** With a page to read, the lookup returns one of the four verdicts or
    raises. *)
Lemma lookup_verdict (w : World) (page_text label class_code : string) :
  body_text w = Ok page_text ->
  (exists what evidence,
      lookup w label class_code = Ok (fmt label what, evidence)
      /\ verdict_text what)
  \/ (exists e, lookup w label class_code = Raise e).
Proof.
  intros Hw.
  destruct (matching page_text class_code) as [|first others] eqn:Hm.
  - rewrite (lookup_no_block _ _ _ _ Hw Hm). left.
    exists "NOT FOUND", "". split; [reflexivity|now left].
  - destruct (flat_map _get_lec_lab_rows (first :: others)) as [|r rs] eqn:Hr.
    + rewrite (lookup_no_rows _ _ _ _ _ _ Hw Hm Hr). left.
      exists "NOT FOUND", (Str.take 600 first). split; [reflexivity|now left].
    + rewrite (lookup_status _ _ _ _ _ _ Hw Hm) by (rewrite Hr; discriminate).
      rewrite Hr. unfold _parse_lec_lab_status.
      destruct (status_loop_forms (r :: rs) [] []) as [[e E]|[E|[[n E]|[n E]]]];
        rewrite E; cbn [bind].
      * right. eauto.
      * left. exists "CLOSED", (Str.take 600 first). split; [reflexivity|].
        right; now left.
      * left. exists (Str.of_int n ++ " SEATS OPEN"), (Str.take 600 first).
        split; [reflexivity|]. right; right; left. now exists n.
      * left. exists (Str.of_int n ++ " WAITLIST SEATS"), (Str.take 600 first).
        split; [reflexivity|]. right; right; right. now exists n.
Qed.

Lemma lookup_raises (w : World) (label class_code e : string) :
  body_text w = Raise e -> lookup w label class_code = Raise e.
Proof. intros Hw. unfold lookup. now rewrite Hw. Qed.

(** A pattern found at the start of [l ++ suffix] lies in [l] or runs over
    its end into [suffix]. *)
Lemma startswith_app_cases (p : string) :
  forall l suffix,
    Str.startswith (l ++ suffix) p = true ->
    Str.startswith l p = true
    \/ exists p1 p2, p = p1 ++ p2 /\ l = p1 /\ Str.startswith suffix p2 = true.
Proof.
  induction p as [|a p IH]; intros l suffix H.
  - now left.
  - destruct l as [|b l].
    + right. now exists "", (String a p).
    + cbn [append Str.startswith] in *.
      apply andb_true_iff in H as [Hab H]. rewrite Hab.
      destruct (IH _ _ H) as [Hl|(p1 & p2 & -> & -> & Hs)]; [now left|].
      right. exists (String a p1), p2. apply Ascii.eqb_eq in Hab. subst b.
      auto.
Qed.

Lemma contains_app_suffix (p suffix : string) :
  no_overlap p suffix ->
  Str.contains p suffix = false ->
  forall l, Str.contains p l = false -> Str.contains p (l ++ suffix) = false.
Proof.
  intros Hov Hs. induction l as [|c l IH]; intros Hl; [assumption|].
  cbn [Str.contains] in Hl. apply orb_false_iff in Hl as [Hh Hl].
  cbn [append Str.contains]. rewrite (IH Hl), orb_false_r.
  destruct (Str.startswith (String c (l ++ suffix)) p) eqn:E; [|reflexivity].
  destruct (startswith_app_cases p (String c l) suffix E)
    as [H|(p1 & p2 & Ep & El & H)]; [congruence|].
  assert (Hself : forall x, Str.startswith x x = true)
    by (intro x; rewrite <- (app_nil_r x) at 1; apply startswith_app).
  rewrite (Hov _ _ Ep H), app_nil_r in Ep.
  rewrite Ep, <- El, Hself in Hh. discriminate.
Qed.

Lemma app_inv_head (a b c : string) : a ++ b = a ++ c -> b = c.
Proof. induction a as [|x a IH]; simpl; intros H; [assumption|]. inversion H. auto. Qed.

Lemma app_inv_last (x y : string) (c : ascii) :
  x ++ String c "" = y ++ String c "" -> x = y.
Proof.
  revert y; induction x as [|a x IH]; intros [|b y] H; simpl in H.
  - reflexivity.
  - inversion H. destruct y; discriminate.
  - inversion H. destruct x; discriminate.
  - inversion H. f_equal. auto.
Qed.

Lemma fmt_inj (label a b : string) : fmt label a = fmt label b -> a = b.
Proof.
  unfold fmt. intros H. apply app_inv_head in H. apply app_inv_head in H.
  apply app_inv_head in H. now apply app_inv_last in H.
Qed.

Lemma digits_head_of_uint (d : Decimal.uint) :
  d <> Decimal.Nil ->
  exists c r, NilEmpty.string_of_uint d = String c r /\ Char.isdigit c = true.
Proof. destruct d; intros H; try congruence; simpl; eauto. Qed.

Lemma of_int_head (n : N) :
  exists c r, Str.of_int n = String c r /\ Char.isdigit c = true.
Proof.
  unfold Str.of_int, NilZero.string_of_uint.
  destruct (N.to_uint n) eqn:E; try (apply digits_head_of_uint; discriminate).
  exists "0"%char, "". auto.
Qed.

Lemma verdict_not_error (what : string) : verdict_text what -> what <> "ERROR".
Proof.
  intros [->|[->|[[n ->]|[n ->]]]]; try discriminate;
    destruct (of_int_head n) as (c & r & -> & Hc); intros H;
    inversion H; subst c; discriminate.
Qed.

End Results.

(** ** The properties of the specification *)

Section Properties.

Import Monitor.

Lemma open_status_of_captured (rows : list string) (x : N) (xs : list N) :
  (forall row, In row rows -> ~ closed_signal row /\ ints_ok row = true) ->
  captured open_count rows = x :: xs ->
  _parse_lec_lab_status rows = Ok ("open", Some (max_of x xs)).
Proof.
  intros Hno E. unfold _parse_lec_lab_status.
  rewrite (status_loop_collects rows Hno). cbn [List.app status_loop].
  now rewrite E.
Qed.

Lemma captured_in (count : string -> option N) (rows : list string) (row : string) (n : N) :
  In row rows -> count row = Some n -> In n (captured count rows).
Proof.
  intros Hin E. apply in_flat_map. exists row. split; [assumption|].
  rewrite E. now left.
Qed.

(** C2, as the code has it: when a row of the pool carries a closed or
    class-full signal, case-insensitively, and [int] accepts the counts
    captured in the rows before it (at most 4300 digits each), the
    classifier returns the closed verdict with no count, whatever the
    other rows say and wherever the row stands. *)
Theorem parse_status_closed_first
        (pre : list string) (row : string) (post : list string) :
  closed_signal row ->
  (forall r, In r pre -> ints_ok r = true) ->
  _parse_lec_lab_status (pre ++ row :: post) = Ok ("closed", None).
Proof. intros Hc Hpre. now apply status_loop_closed. Qed.

Lemma parse_status_closed_first_witness :
  _parse_lec_lab_status
    (["Lec 1 Open: 5 of 20 left"; "Lab 1 Waitlist: 3"] ++ "Lec 2 Closed"
       :: ["Lec 3 Open: 7 of 20 left"; row_long_open]) = Ok ("closed", None).
Proof.
  apply parse_status_closed_first.
  - left. reflexivity.
  - intros r [<-|[<-|[]]]; reflexivity.
Defined.

(** C2 as stated fails: a count of 4301 digits in a row before the closed
    row makes [int] raise before the closed row is seen. *)
Lemma parse_status_closed_first_counterexample :
  closed_signal "Lec 2 Closed"
  /\ _parse_lec_lab_status [row_long_open; "Lec 2 Closed"]
     = Raise (Str.int_limit_error 4301)
  /\ _parse_lec_lab_status [row_long_open; "Lec 2 Closed"] <> Ok ("closed", None).
Proof.
  assert (H : _parse_lec_lab_status [row_long_open; "Lec 2 Closed"]
              = Raise (Str.int_limit_error 4301)) by (vm_compute; reflexivity).
  split; [left; reflexivity|]. split; [exact H|]. rewrite H. discriminate.
Qed.

(** C3, as the code has it: in a pool with no closed signal, in which
    [int] accepts every captured count (at most 4300 digits) and at least
    one row matches the open-seat pattern, case-insensitively, the
    classifier returns open(m) with m the greatest of the counts of the
    rows, each matching row giving the count of its leftmost match only: m
    is one of them and none exceeds it, so it is neither their sum nor the
    first.  Rows with counts 3, 10 and 1 give open(10). *)
Theorem parse_status_open_max :
  (forall rows,
      (forall row, In row rows -> ~ closed_signal row /\ ints_ok row = true) ->
      (exists row, In row rows /\ open_count row <> None) ->
      exists m,
        _parse_lec_lab_status rows = Ok ("open", Some m)
        /\ In m (captured open_count rows)
        /\ forall n, In n (captured open_count rows) -> (n <= m)%N)
  /\
  (forall r1 r2 r3,
      (forall row, In row [r1; r2; r3] ->
                   ~ closed_signal row /\ ints_ok row = true) ->
      open_count r1 = Some 3%N -> open_count r2 = Some 10%N ->
      open_count r3 = Some 1%N ->
      _parse_lec_lab_status [r1; r2; r3] = Ok ("open", Some 10%N)).
Proof.
  split.
  - intros rows Hno (row & Hin & Hc).
    destruct (open_count row) as [n|] eqn:E; [|congruence].
    pose proof (captured_in _ _ _ _ Hin E) as Hn.
    destruct (captured open_count rows) as [|x xs] eqn:Ec; [contradiction|].
    exists (max_of x xs). split; [now apply open_status_of_captured|].
    split; [apply max_of_in|].
    destruct (max_of_upper xs x) as [Hx Hxs]. intros k [<-|Hk]; auto.
  - intros r1 r2 r3 Hno E1 E2 E3.
    rewrite (open_status_of_captured _ 3%N [10%N; 1%N] Hno); [reflexivity|].
    cbn [captured flat_map]. now rewrite E1, E2, E3.
Qed.

Lemma parse_status_open_max_witness :
  (exists m,
      _parse_lec_lab_status
        ["Lec 1 Open: 3 of 20 left"; "Lab 1 OPEN: 10 of 30 left";
         "lec 2 open:1 of 5left"] = Ok ("open", Some m)
      /\ In m (captured open_count
                 ["Lec 1 Open: 3 of 20 left"; "Lab 1 OPEN: 10 of 30 left";
                  "lec 2 open:1 of 5left"])
      /\ forall n, In n (captured open_count
                           ["Lec 1 Open: 3 of 20 left"; "Lab 1 OPEN: 10 of 30 left";
                            "lec 2 open:1 of 5left"]) -> (n <= m)%N)
  /\ _parse_lec_lab_status
       ["Lec 1 Open: 3 of 20 left"; "Lab 1 OPEN: 10 of 30 left";
        "lec 2 open:1 of 5left"] = Ok ("open", Some 10%N).
Proof.
  assert (Hno : forall row,
             In row ["Lec 1 Open: 3 of 20 left"; "Lab 1 OPEN: 10 of 30 left";
                     "lec 2 open:1 of 5left"] ->
             ~ closed_signal row /\ ints_ok row = true).
  { intros row [<-|[<-|[<-|[]]]]; (split; [|reflexivity]);
      intros [H|H]; vm_compute in H; discriminate. }
  split.
  - apply (proj1 parse_status_open_max _ Hno).
    exists "Lec 1 Open: 3 of 20 left". split; [now left|].
    vm_compute. discriminate.
  - apply (proj2 parse_status_open_max); [exact Hno|reflexivity..].
Defined.

(** C3 as stated fails twice: in a row where the pattern matches twice
    only the leftmost count is taken, so the result is open(3) although
    the counts captured in the pool are 3 and 10; and a count of 4301
    digits makes [int] raise. *)
Lemma parse_status_open_max_counterexample :
  ~ closed_signal row_two_matches
  /\ all_open_counts [row_two_matches] = [3%N; 10%N]
  /\ _parse_lec_lab_status [row_two_matches] = Ok ("open", Some 3%N)
  /\ ~ closed_signal row_long_open
  /\ open_capture row_long_open = Some long_count
  /\ _parse_lec_lab_status [row_long_open] = Raise (Str.int_limit_error 4301).
Proof.
  split; [intros [H|H]; vm_compute in H; discriminate|].
  split; [vm_compute; reflexivity|]. split; [vm_compute; reflexivity|].
  split; [intros [H|H]; vm_compute in H; discriminate|].
  split; vm_compute; reflexivity.
Qed.

(** The exception a raising lookup carries, once the page is read, is the
    digit-limit error of a pooled row. *)
Lemma lookup_raise_origin (w : World) (page_text label class_code e : string) :
  body_text w = Ok page_text ->
  lookup w label class_code = Raise e ->
  exists first others row,
    matching page_text class_code = first :: others
    /\ In row (flat_map _get_lec_lab_rows (first :: others))
    /\ ints_ok row = false
    /\ row_error row = Some e.
Proof.
  intros Hw Hl.
  destruct (matching page_text class_code) as [|first others] eqn:Hm.
  { rewrite (lookup_no_block _ _ _ _ Hw Hm) in Hl. discriminate. }
  destruct (flat_map _get_lec_lab_rows (first :: others)) as [|r rs] eqn:Hr.
  { rewrite (lookup_no_rows _ _ _ _ _ _ Hw Hm Hr) in Hl. discriminate. }
  rewrite (lookup_status _ _ _ _ _ _ Hw Hm) in Hl by (rewrite Hr; discriminate).
  rewrite Hr in Hl. unfold _parse_lec_lab_status in Hl.
  exists first, others.
  destruct (rows_cases (r :: rs))
    as [(pre & row & post & E & Hp & Hc)|[(pre & row & post & E & Hp & Hc & Hi)|Hall]].
  - rewrite E, (status_loop_closed pre row post) in Hl; [discriminate| |exact Hc].
    intros r0 H0. now apply Hp.
  - destruct (status_loop_raises pre row post Hp Hc Hi [] []) as (e' & He & Hs).
    rewrite E, Hs in Hl. cbn [bind] in Hl. inversion Hl; subst e'.
    exists row. split; [reflexivity|]. split; [|auto].
    rewrite Hr, E. apply in_or_app. right. now left.
  - rewrite (status_loop_collects _ Hall) in Hl. cbn [status_loop] in Hl.
    destruct ([] ++ captured open_count (r :: rs))%list;
      [destruct ([] ++ captured waitlist_count (r :: rs))%list|]; discriminate.
Qed.

(** C4: the lookup always returns a pair whose label is the ERROR form or
    one of the four verdicts.  An exception raised by the page read is
    caught and returned as the ERROR label with its description, and so is
    an exception raised by the classifier on the rows of the matching
    blocks; a warning is logged.  After the page is read the only failure
    there is comes from a count that [int] refuses. *)
Theorem availability_never_raises (w : World) (label class_code : string) :
  (forall e,
      body_text w = Raise e ->
      get_course_availability w label class_code =
      ((fmt label "ERROR", e),
       logger WARNING ("Extract availability failed for " ++ label ++ ": " ++ e) w))
  /\ (forall page_text first others e,
         body_text w = Ok page_text ->
         matching page_text class_code = first :: others ->
         _parse_lec_lab_status (flat_map _get_lec_lab_rows (first :: others))
         = Raise e ->
         get_course_availability w label class_code =
         ((fmt label "ERROR", e),
          logger WARNING ("Extract availability failed for " ++ label ++ ": " ++ e) w))
  /\ (forall page_text,
         body_text w = Ok page_text ->
         (exists what evidence,
             get_course_availability w label class_code =
               ((fmt label what, evidence), w)
             /\ verdict_text what)
         \/ (exists first others row e,
                matching page_text class_code = first :: others
                /\ In row (flat_map _get_lec_lab_rows (first :: others))
                /\ row_error row = Some e
                /\ fst (get_course_availability w label class_code)
                   = (fmt label "ERROR", e)))
  /\ (exists what evidence,
         fst (get_course_availability w label class_code) =
           (fmt label what, evidence)
         /\ (what = "ERROR" \/ verdict_text what)).
Proof.
  assert (H1 : forall e, body_text w = Raise e ->
               get_course_availability w label class_code =
               ((fmt label "ERROR", e),
                logger WARNING
                  ("Extract availability failed for " ++ label ++ ": " ++ e) w)).
  { intros e Hw. apply availability_raise. now apply lookup_raises. }
  assert (H3 : forall page_text, body_text w = Ok page_text ->
               (exists what evidence,
                   get_course_availability w label class_code =
                     ((fmt label what, evidence), w)
                   /\ verdict_text what)
               \/ (exists first others row e,
                      matching page_text class_code = first :: others
                      /\ In row (flat_map _get_lec_lab_rows (first :: others))
                      /\ row_error row = Some e
                      /\ fst (get_course_availability w label class_code)
                         = (fmt label "ERROR", e))).
  { intros page_text Hw.
    destruct (lookup_verdict w page_text label class_code Hw)
      as [(what & ev & E & Hv)|[e E]].
    - left. exists what, ev. split; [now apply availability_ok|assumption].
    - right.
      destruct (lookup_raise_origin w page_text label class_code e Hw E)
        as (first & others & row & Hm & Hin & _ & He).
      exists first, others, row, e. rewrite (availability_raise _ _ _ _ E). auto. }
  split; [exact H1|]. split; [|split; [exact H3|]].
  - intros page_text first others e Hw Hm Hp. apply availability_raise.
    assert (Hr : flat_map _get_lec_lab_rows (first :: others) <> []).
    { intros E. rewrite E in Hp. discriminate. }
    rewrite (lookup_status _ _ _ _ _ _ Hw Hm Hr), Hp. reflexivity.
  - destruct (body_text w) as [page_text|e] eqn:Hw.
    + destruct (H3 _ eq_refl)
        as [(what & ev & E & Hv)|(first & others & row & e & _ & _ & _ & E)].
      * exists what, ev. rewrite E. auto.
      * exists "ERROR", e. auto.
    + exists "ERROR", e. rewrite (H1 e eq_refl). auto.
Qed.

Lemma availability_never_raises_witness :
  get_course_availability (mkWorld (Raise "no such element") [] []) "AERO" "A"
  = (("[AERO - ERROR]", "no such element"),
     mkWorld (Raise "no such element")
             [(WARNING, "Extract availability failed for AERO: no such element")] [])
  /\ get_course_availability (browser page_long) "AERO" "A"
     = ((fmt "AERO" "ERROR", Str.int_limit_error 4301),
        logger WARNING ("Extract availability failed for " ++ "AERO" ++ ": "
                        ++ Str.int_limit_error 4301) (browser page_long))
  /\ ((exists what evidence,
          get_course_availability (browser page_aero) "AERO" "A" =
            ((fmt "AERO" what, evidence), browser page_aero)
          /\ verdict_text what)
      \/ (exists first others row e,
             matching page_aero "A" = first :: others
             /\ In row (flat_map _get_lec_lab_rows (first :: others))
             /\ row_error row = Some e
             /\ fst (get_course_availability (browser page_aero) "AERO" "A")
                = (fmt "AERO" "ERROR", e))).
Proof.
  split; [|split].
  - apply (proj1 (availability_never_raises
             (mkWorld (Raise "no such element") [] []) "AERO" "A")).
    reflexivity.
  - apply (proj1 (proj2 (availability_never_raises (browser page_long) "AERO" "A"))
             page_long page_long []); vm_compute; reflexivity.
  - apply (proj1 (proj2 (proj2 (availability_never_raises
             (browser page_aero) "AERO" "A"))) page_aero).
    reflexivity.
Defined.

Lemma sixty_is_not_six (ws r r' : string) :
  "60" ++ r = "6" ++ ws ++ "-" ++ r' -> blank ws = true -> False.
Proof.
  intros E Hb. destruct ws as [|c ws]; simpl in E; inversion E.
  subst c. discriminate.
Qed.

(** C5: a block of fewer than two lines matches no identifier; a block
    matches exactly when the second line of the trimmed block, trimmed,
    starts with the identifier, character for character, followed by
    optional white space and a dash; identifier 6 does not match a second
    line that begins with 60; and the blocks the segmenter returns are
    already trimmed, so that for them the second line is the block's own. *)
Theorem block_matches_second_line (block class_code : string) :
  (List.length (Str.split_lines block) < 2 ->
   _block_matches_class_code block class_code = false)
  /\ (_block_matches_class_code block class_code = true <->
      exists l0 l1 rest,
        Str.split_lines (Str.strip block) = l0 :: l1 :: rest /\
        exists ws r,
          Str.strip l1 = class_code ++ ws ++ "-" ++ r /\ blank ws = true)
  /\ (forall l0 l1 rest r,
         Str.split_lines (Str.strip block) = l0 :: l1 :: rest ->
         Str.strip l1 = "60" ++ r ->
         _block_matches_class_code block "6" = false)
  /\ (forall page_text,
         In block (_get_class_blocks page_text) -> Str.strip block = block).
Proof.
  split; [apply matches_short|]. split; [apply matches_iff|]. split.
  - intros l0 l1 rest r E E1.
    destruct (_block_matches_class_code block "6") eqn:Hm; [|reflexivity].
    apply matches_iff in Hm as (? & l1' & ? & E' & ws & r' & E2 & Hb).
    rewrite E in E'. inversion E'; subst. rewrite E1 in E2.
    destruct (sixty_is_not_six _ _ _ E2 Hb).
  - intros page_text. apply class_blocks_trimmed.
Qed.

Lemma block_matches_second_line_witness :
  _block_matches_class_code "Class 1:" "A" = false
  /\ (exists l0 l1 rest,
        Str.split_lines (Str.strip ("Class 2:" ++ nl ++ "C++ - Programming")) =
          l0 :: l1 :: rest /\
        exists ws r,
          Str.strip l1 = "C++" ++ ws ++ "-" ++ r /\ blank ws = true)
  /\ _block_matches_class_code ("Class 3:" ++ nl ++ "60 - Nordic Film") "6" = false
  /\ Str.strip ("Class 1:" ++ nl ++ "A - Intro to Aerospace")
     = "Class 1:" ++ nl ++ "A - Intro to Aerospace".
Proof.
  split; [|split; [|split]].
  - apply (proj1 (block_matches_second_line "Class 1:" "A")). simpl. lia.
  - apply (proj1 (proj2 (block_matches_second_line
             ("Class 2:" ++ nl ++ "C++ - Programming") "C++"))).
    reflexivity.
  - apply (proj1 (proj2 (proj2 (block_matches_second_line
             ("Class 3:" ++ nl ++ "60 - Nordic Film") "6")))
             "Class 3:" "60 - Nordic Film" [] " - Nordic Film");
      reflexivity.
  - apply (proj2 (proj2 (proj2 (block_matches_second_line
             ("Class 1:" ++ nl ++ "A - Intro to Aerospace") "A")))
             ("intro " ++ "Class 1:" ++ nl ++ "A - Intro to Aerospace")).
    vm_compute. now left.
Defined.

(** C6: every row the extractor emits begins, case-insensitively, with
    lec or lab followed by a space, so none begins with dis; a row is a
    lecture or lab line alone or joined to a status line that starts no
    lec, lab or dis section; and a dis line that follows a lecture or lab
    line is not merged into that row and starts no row of its own. *)
Theorem rows_never_discussion (block : string) :
  (forall row,
      In row (_get_lec_lab_rows block) ->
      starts_lec_lab row = true
      /\ Str.startswith (Str.lower row) "dis " = false
      /\ row_shape (map Str.strip (skipn 2 (Str.split_lines (Str.strip block)))) row)
  /\ (forall l1 l2 rest,
         starts_lec_lab (Str.strip l1) = true ->
         Str.startswith (Str.lower (Str.strip l2)) "dis " = true ->
         rows_loop (l1 :: l2 :: rest) = Str.strip l1 :: rows_loop rest).
Proof.
  split; [|apply rows_loop_lec_dis].
  intros row H. apply rows_loop_shape in H.
  pose proof (row_shape_lec_lab _ _ H) as Hl.
  split; [assumption|]. split; [now apply lec_lab_not_dis|assumption].
Qed.

Lemma rows_never_discussion_witness :
  (starts_lec_lab "Lec 1" = true
   /\ Str.startswith (Str.lower "Lec 1") "dis " = false
   /\ row_shape
        (map Str.strip
           (skipn 2 (Str.split_lines
              (Str.strip ("Class 1:" ++ nl ++ "A - Intro" ++ nl ++ "Lec 1" ++ nl
                          ++ "Dis 1A Open: 10 of 30 left")))))
        "Lec 1")
  /\ rows_loop ["Lec 1"; "Dis 1A Open: 10 of 30 left"; "Lab 2"; "Closed"]
     = Str.strip "Lec 1" :: rows_loop ["Lab 2"; "Closed"].
Proof.
  split.
  - apply (proj1 (rows_never_discussion
             ("Class 1:" ++ nl ++ "A - Intro" ++ nl ++ "Lec 1" ++ nl
              ++ "Dis 1A Open: 10 of 30 left"))).
    vm_compute. now left.
  - apply (proj2 (rows_never_discussion "")); reflexivity.
Defined.

(** C7: when a block matches and the rows pooled over the matching blocks
    are empty, the lookup returns NOT FOUND with the first 600 characters
    of the first matching block, which are not empty; when the identifier
    does not occur in the page, or no block matches, it returns NOT FOUND
    with empty evidence. *)
Theorem no_rows_not_found_with_evidence
        (w : World) (page_text label class_code : string) :
  body_text w = Ok page_text ->
  (forall first others,
      matching page_text class_code = first :: others ->
      flat_map _get_lec_lab_rows (first :: others) = [] ->
      fst (get_course_availability w label class_code) =
        (fmt label "NOT FOUND", Str.take 600 first)
      /\ Str.take 600 first <> "")
  /\ (Str.contains class_code page_text = false ->
      fst (get_course_availability w label class_code) =
        (fmt label "NOT FOUND", ""))
  /\ (matching page_text class_code = [] ->
      fst (get_course_availability w label class_code) =
        (fmt label "NOT FOUND", "")).
Proof.
  intros Hw. split; [|split].
  - intros first others Hm Hr.
    rewrite (availability_ok _ _ _ _ (lookup_no_rows _ _ _ _ _ _ Hw Hm Hr)).
    split; [reflexivity|]. apply take_nonempty.
    assert (H : In first (matching page_text class_code))
      by (rewrite Hm; now left).
    apply filter_In in H as [_ H]. now apply matches_nonempty in H.
  - intros Hc. now rewrite (availability_ok _ _ _ _ (lookup_no_code _ _ _ _ Hw Hc)).
  - intros Hm. now rewrite (availability_ok _ _ _ _ (lookup_no_block _ _ _ _ Hw Hm)).
Qed.

Lemma no_rows_not_found_with_evidence_witness :
  (fst (get_course_availability (browser page_dis_only) "AERO" "A") =
     (fmt "AERO" "NOT FOUND", Str.take 600 page_dis_only)
   /\ Str.take 600 page_dis_only <> "")
  /\ fst (get_course_availability (browser page_dis_only) "M61" "61") =
       (fmt "M61" "NOT FOUND", "")
  /\ fst (get_course_availability (browser page_dis_only) "SCAND60" "0") =
       (fmt "SCAND60" "NOT FOUND", "").
Proof.
  split; [|split].
  - apply (proj1 (no_rows_not_found_with_evidence
             (browser page_dis_only) page_dis_only "AERO" "A" eq_refl)
             page_dis_only []); reflexivity.
  - apply (proj1 (proj2 (no_rows_not_found_with_evidence
             (browser page_dis_only) page_dis_only "M61" "61" eq_refl)));
      reflexivity.
  - apply (proj2 (proj2 (no_rows_not_found_with_evidence
             (browser page_dis_only) page_dis_only "SCAND60" "0" eq_refl)));
      reflexivity.
Defined.

Lemma lookup_ext (w1 w2 : World) (label class_code : string) :
  body_text w1 = body_text w2 ->
  lookup w1 label class_code = lookup w2 label class_code.
Proof. intros H. unfold lookup. now rewrite H. Qed.




(** C9: a page in which no header occurs, the empty page among them,
    has no blocks; in a page with a header, the text before the leftmost
    header is dropped, the first block is that header joined to the
    content up to the next header (or to the end of the page), trimmed,
    and the other blocks are those of the rest of the page, in order. *)
Theorem class_blocks_segmentation (page_text : string) :
  (no_header page_text -> _get_class_blocks page_text = [])
  /\ _get_class_blocks "" = []
  /\ (forall pre h rest,
         first_header page_text pre h rest ->
         exists content,
           _get_class_blocks page_text =
             Str.strip (h ++ content) :: _get_class_blocks rest
           /\ ((no_header rest /\ content = rest)
               \/ exists h' rest', first_header rest content h' rest')).
Proof.
  split; [apply class_blocks_no_header|]. split; [reflexivity|].
  apply class_blocks_first.
Qed.

Lemma class_blocks_segmentation_witness :
  _get_class_blocks "my plan" = []
  /\ exists content,
      _get_class_blocks ("my plan " ++ page_aero) =
        Str.strip (("Class 1:" ++ nl) ++ content)
        :: _get_class_blocks
             ("A - Intro to Aerospace" ++ nl ++ "Lec 1 Open: 84 of 300 left"
              ++ nl ++ "Dis 1A Open: 10 of 30 left")
      /\ ((no_header ("A - Intro to Aerospace" ++ nl
                      ++ "Lec 1 Open: 84 of 300 left"
                      ++ nl ++ "Dis 1A Open: 10 of 30 left")
           /\ content = "A - Intro to Aerospace" ++ nl
                        ++ "Lec 1 Open: 84 of 300 left"
                        ++ nl ++ "Dis 1A Open: 10 of 30 left")
          \/ exists h' rest',
              first_header ("A - Intro to Aerospace" ++ nl
                            ++ "Lec 1 Open: 84 of 300 left"
                            ++ nl ++ "Dis 1A Open: 10 of 30 left")
                           content h' rest').
Proof.
  split.
  - apply (proj1 (class_blocks_segmentation "my plan")).
    intros i. do 7 (destruct i as [|i]; [reflexivity|]). destruct i; reflexivity.
  - apply (proj2 (proj2 (class_blocks_segmentation ("my plan " ++ page_aero)))
             "my plan " ("Class 1:" ++ nl)).
    split; [reflexivity|]. split; [reflexivity|].
    intros i Hi. do 8 (destruct i as [|i]; [reflexivity|]). simpl in Hi. lia.
Defined.

Lemma contains_skip_first (p : string) (a c : ascii) (p' s : string) :
  p = String a p' -> Ascii.eqb a c = false ->
  Str.contains p (String c s) = Str.contains p s.
Proof. intros -> H. cbn [Str.contains Str.startswith]. now rewrite H. Qed.

Lemma no_overlap_closed : no_overlap "CLOSED" " - 0 SEATS OPEN]".
Proof. overlap. Qed.

Lemma no_overlap_not_found : no_overlap "NOT FOUND" " - 0 SEATS OPEN]".
Proof. overlap. Qed.

Lemma no_overlap_closed_error : no_overlap "CLOSED" " - ERROR]".
Proof. overlap. Qed.

Lemma no_overlap_not_found_error : no_overlap "NOT FOUND" " - ERROR]".
Proof. overlap. Qed.

(** A label that names neither verdict lets a zero-seat result through. *)
Lemma available_zero_open (label : string) :
  Str.contains "CLOSED" label = false ->
  Str.contains "NOT FOUND" label = false ->
  available (fmt label "0 SEATS OPEN") = true.
Proof.
  intros Hc Hn. unfold available, fmt.
  change ("[" ++ label ++ " - " ++ "0 SEATS OPEN" ++ "]")
    with (String "[" (label ++ " - 0 SEATS OPEN]")).
  rewrite (contains_skip_first "CLOSED" "C" "[" "LOSED") by reflexivity.
  rewrite (contains_skip_first "NOT FOUND" "N" "[" "OT FOUND") by reflexivity.
  rewrite (contains_app_suffix _ _ no_overlap_closed eq_refl _ Hc).
  rewrite (contains_app_suffix _ _ no_overlap_not_found eq_refl _ Hn).
  reflexivity.
Qed.

(** C10: a pool without closed signal whose counts [int] accepts and
    whose open-seat counts are all zero, such as the single row Lec 1
    Open: 0 of 300 left, classifies as open(0); when the pooled rows of the
    matching blocks classify as open(0) the result label is [<label> - 0
    SEATS OPEN]; and for a label that itself contains neither CLOSED nor
    NOT FOUND the poll loop takes that result as available and hands it to
    the notifier. *)
Theorem zero_seats_notifies :
  _parse_lec_lab_status ["Lec 1 Open: 0 of 300 left"] = Ok ("open", Some 0%N)
  /\ (forall rows,
         (forall row, In row rows -> ~ closed_signal row /\ ints_ok row = true) ->
         captured open_count rows <> [] ->
         (forall n, In n (captured open_count rows) -> n = 0%N) ->
         _parse_lec_lab_status rows = Ok ("open", Some 0%N))
  /\ forall (w : World) (page_text label class_code first : string)
            (others : list string) (channel : string),
      body_text w = Ok page_text ->
      matching page_text class_code = first :: others ->
      _parse_lec_lab_status (flat_map _get_lec_lab_rows (first :: others))
      = Ok ("open", Some 0%N) ->
      fst (get_course_availability w label class_code) =
        (fmt label "0 SEATS OPEN", Str.take 600 first)
      /\ (Str.contains "CLOSED" label = false ->
          Str.contains "NOT FOUND" label = false ->
          available (fmt label "0 SEATS OPEN") = true
          /\ posted (poll channel [(label, class_code)] w) =
             List.app (posted w) ["*" ++ fmt label "0 SEATS OPEN" ++ "*"]).
Proof.
  split; [reflexivity|]. split.
  { intros rows Hno Hne Hz.
    destruct (captured open_count rows) as [|x xs] eqn:E; [congruence|].
    rewrite (open_status_of_captured rows x xs Hno E).
    now rewrite (Hz _ (max_of_in xs x)). }
  intros w page_text label class_code first others channel Hw Hm Hp.
  assert (Hr : flat_map _get_lec_lab_rows (first :: others) <> []).
  { intros E. rewrite E in Hp. discriminate. }
  pose proof (lookup_status w page_text label class_code first others Hw Hm Hr) as Hl.
  rewrite Hp in Hl. cbn in Hl.
  apply availability_ok in Hl. split; [now rewrite Hl|].
  intros Hc Hn. pose proof (available_zero_open label Hc Hn) as Ha.
  split; [assumption|].
  cbn [poll]. rewrite Hl. unfold fmt in Ha |- *. cbn in Ha |- *.
  rewrite Ha. reflexivity.
Qed.

Lemma zero_seats_notifies_witness :
  _parse_lec_lab_status ["Lec 1 Open: 0 of 300 left"; "Lab 1 open: 0 of 20 left"]
  = Ok ("open", Some 0%N)
  /\ fst (get_course_availability (browser page_zero) "AERO" "A") =
      (fmt "AERO" "0 SEATS OPEN", Str.take 600 page_zero)
  /\ available (fmt "AERO" "0 SEATS OPEN") = true
  /\ posted (poll "#ucla" [("AERO", "A")] (browser page_zero)) =
     ["*[AERO - 0 SEATS OPEN]*"].
Proof.
  split.
  - apply (proj1 (proj2 zero_seats_notifies)).
    + intros row [<-|[<-|[]]]; (split; [|reflexivity]);
        intros [H|H]; vm_compute in H; discriminate.
    + vm_compute. discriminate.
    + vm_compute. intros n [<-|[<-|[]]]; reflexivity.
  - destruct (proj2 (proj2 zero_seats_notifies) (browser page_zero) page_zero
                "AERO" "A" page_zero [] "#ucla" eq_refl eq_refl eq_refl)
      as [H1 H2].
    split; [exact H1|]. apply H2; reflexivity.
Defined.

(** C1: the gate of the poll loop lets more than the OPEN and WAITLIST
    results through: when reading the page raises, every tracked course
    gets the ERROR label, which contains neither CLOSED nor NOT FOUND, and
    each is posted; and it holds back an OPEN result whose display name
    contains CLOSED. *)
Theorem error_result_is_posted :
  (forall e channel,
      posted (poll channel COURSES (mkWorld (Raise e) [] [])) =
      ["*[AERO - ERROR]*"; "*[SCAND60 - ERROR]*"; "*[M61 - ERROR]*"])
  /\ (forall label, Str.contains "CLOSED" label = false ->
                    Str.contains "NOT FOUND" label = false ->
                    available (fmt label "ERROR") = true)
  /\ available (fmt "ENCLOSED SPACES" "5 SEATS OPEN") = false.
Proof.
  split; [|split]; [reflexivity| |reflexivity].
  intros label Hc Hn. unfold available, fmt.
  change ("[" ++ label ++ " - " ++ "ERROR" ++ "]")
    with (String "[" (label ++ " - ERROR]")).
  rewrite (contains_skip_first "CLOSED" "C" "[" "LOSED") by reflexivity.
  rewrite (contains_skip_first "NOT FOUND" "N" "[" "OT FOUND") by reflexivity.
  rewrite (contains_app_suffix _ _ no_overlap_closed_error eq_refl _ Hc).
  rewrite (contains_app_suffix _ _ no_overlap_not_found_error eq_refl _ Hn).
  reflexivity.
Qed.

Lemma error_result_is_posted_witness :
  available (fmt "AERO" "ERROR") = true.
Proof.
  apply (proj1 (proj2 error_result_is_posted) "AERO"); reflexivity.
Defined.

(** ** The scenarios of the specification *)

Example scenario_round_trip :
  fst (get_course_availability (browser page_aero) "AERO" "A")
  = ("[AERO - 84 SEATS OPEN]", page_aero).
Proof. reflexivity. Qed.

Example scenario_identifier_absent :
  fst (get_course_availability (browser page_aero) "X" "Z9")
  = ("[X - NOT FOUND]", "").
Proof. reflexivity. Qed.

Example scenario_closed_row :
  fst (fst (get_course_availability
              (browser ("Class 4:" ++ nl ++ "61 - Linear Algebra" ++ nl
                        ++ "Lec 2" ++ nl ++ "Closed"))
              "M61" "61"))
  = "[M61 - CLOSED]".
Proof. reflexivity. Qed.

Example scenario_waitlist :
  fst (fst (get_course_availability
              (browser ("Class 4:" ++ nl ++ "61 - Linear Algebra" ++ nl
                        ++ "Lec 2" ++ nl ++ "Waitlist: 5 of 10 taken" ++ nl
                        ++ "class 5:  " ++ nl ++ "  61 - Linear Algebra (honors)"
                        ++ nl ++ "LAB 1" ++ nl ++ "waitlist 12"))
              "M61" "61"))
  = "[M61 - 12 WAITLIST SEATS]".
Proof. reflexivity. Qed.

Example scenario_tracked_courses_one_page :
  posted (poll "#ucla" COURSES (browser page_aero)) = ["*[AERO - 84 SEATS OPEN]*"].
Proof. reflexivity. Qed.

End Properties.

(** ** Further properties of the classifier and the extractors *)

Section Verdicts.

Import Monitor.

Lemma captured_nil (count : string -> option N) (rows : list string) :
  (forall row, In row rows -> count row = None) -> captured count rows = [].
Proof.
  induction rows as [|row rows IH]; intros H; [reflexivity|].
  cbn [captured flat_map]. rewrite (H row) by now left.
  apply IH. intros r Hr. apply H. now right.
Qed.

Lemma captured_nil_inv (count : string -> option N) (rows : list string) :
  captured count rows = [] -> forall row, In row rows -> count row = None.
Proof.
  induction rows as [|row rows IH]; intros H r Hr; [contradiction|].
  cbn [captured flat_map] in H. apply List.app_eq_nil in H as [H1 H2].
  destruct Hr as [<-|Hr]; [|now apply IH].
  destruct (count row); [discriminate|reflexivity].
Qed.

(** A row without any captured count has nothing for [int] to refuse. *)
Lemma no_counts_ints_ok (row : string) :
  open_count row = None -> waitlist_count row = None -> ints_ok row = true.
Proof.
  unfold open_count, waitlist_count, ints_ok.
  destruct (open_capture row); [discriminate|].
  destruct (waitlist_capture row); [discriminate|]. reflexivity.
Qed.

(** X1: in a pool with no closed signal, in which [int] accepts every
    captured count and no row matches the open-seat pattern, a row that
    matches the waitlist pattern makes the verdict waitlist(m), m being the
    greatest waitlist count captured. *)
Theorem parse_status_waitlist_max (rows : list string) :
  (forall row, In row rows -> ~ closed_signal row /\ ints_ok row = true) ->
  (forall row, In row rows -> open_count row = None) ->
  (exists row, In row rows /\ waitlist_count row <> None) ->
  exists m,
    _parse_lec_lab_status rows = Ok ("waitlist", Some m)
    /\ In m (captured waitlist_count rows)
    /\ forall n, In n (captured waitlist_count rows) -> (n <= m)%N.
Proof.
  intros Hno Hopen (row & Hin & Hw).
  destruct (waitlist_count row) as [n|] eqn:E; [|congruence].
  pose proof (captured_in _ _ _ _ Hin E) as Hn.
  unfold _parse_lec_lab_status. rewrite (status_loop_collects rows Hno).
  cbn [List.app status_loop]. rewrite (captured_nil _ _ Hopen).
  destruct (captured waitlist_count rows) as [|x xs]; [contradiction|].
  exists (max_of x xs). split; [reflexivity|]. split; [apply max_of_in|].
  destruct (max_of_upper xs x) as [Hx Hxs]. intros k [<-|Hk]; auto.
Qed.

Lemma parse_status_waitlist_max_witness :
  _parse_lec_lab_status
    ["Lec 1 Waitlist: 4 of 10 taken"; "Lab 1 waitlist 12"; "Lec 2 Open soon"]
  = Ok ("waitlist", Some 12%N).
Proof.
  destruct (parse_status_waitlist_max
              ["Lec 1 Waitlist: 4 of 10 taken"; "Lab 1 waitlist 12";
               "Lec 2 Open soon"]) as (m & E & Hin & Hub).
  - intros row [<-|[<-|[<-|[]]]]; (split; [|reflexivity]);
      intros [H|H]; vm_compute in H; discriminate.
  - intros row [<-|[<-|[<-|[]]]]; reflexivity.
  - exists "Lab 1 waitlist 12". split; [simpl; tauto|]. vm_compute. discriminate.
  - rewrite E. specialize (Hub 12%N). vm_compute in Hin, Hub.
    destruct Hin as [<-|[<-|[]]]; [|reflexivity].
    exfalso. apply Hub; [now right; left|reflexivity].
Defined.

(** X2: the verdict is closed exactly when some row carries a closed
    signal and [int] accepted the counts of the rows before it, or no row
    yields an open-seat or waitlist count; so rows whose status text is
    not recognised count as closed. *)
Theorem parse_status_closed_iff (rows : list string) :
  _parse_lec_lab_status rows = Ok ("closed", None) <->
  (exists pre row post,
      rows = (pre ++ row :: post)%list
      /\ closed_signal row
      /\ forall r, In r pre -> ints_ok r = true)
  \/ (captured open_count rows = [] /\ captured waitlist_count rows = []).
Proof.
  unfold _parse_lec_lab_status. split.
  - intros H.
    destruct (rows_cases rows)
      as [(pre & row & post & E & Hp & Hc)|[(pre & row & post & E & Hp & Hc & Hi)|Hall]].
    + left. exists pre, row, post. split; [exact E|]. split; [exact Hc|].
      intros r Hr. now apply Hp.
    + destruct (status_loop_raises pre row post Hp Hc Hi [] []) as (e & _ & Hs).
      rewrite E, Hs in H. discriminate.
    + right. rewrite (status_loop_collects rows Hall) in H.
      cbn [List.app status_loop] in H.
      destruct (captured open_count rows); [|discriminate].
      destruct (captured waitlist_count rows); [auto|discriminate].
  - intros [(pre & row & post & -> & Hc & Hp)|[Ho Hw]];
      [now apply status_loop_closed|].
    assert (Hok : forall r, In r rows -> ints_ok r = true).
    { intros r Hr. apply no_counts_ints_ok;
        [apply (captured_nil_inv _ _ Ho _ Hr)|apply (captured_nil_inv _ _ Hw _ Hr)]. }
    destruct (rows_cases rows)
      as [(pre & row & post & E & Hp & Hc)|[(pre & row & post & E & Hp & Hc & Hi)|Hall]].
    + rewrite E. apply status_loop_closed; [|exact Hc].
      intros r Hr. now apply Hp.
    + rewrite (Hok row) in Hi; [discriminate|].
      rewrite E. apply in_or_app. right. now left.
    + rewrite (status_loop_collects rows Hall). cbn [List.app status_loop].
      now rewrite Ho, Hw.
Qed.

Lemma parse_status_closed_iff_witness :
  _parse_lec_lab_status ["Lec 1 Enrolled"; "Lab 1 Open seats: many"]
  = Ok ("closed", None)
  /\ _parse_lec_lab_status
       (["Lec 1 Open: 2 of 9 left"] ++ "Lab 1 Class Full" :: [row_long_open])
     = Ok ("closed", None).
Proof.
  split.
  - apply (proj2 (parse_status_closed_iff _)). right. split; reflexivity.
  - apply (proj2 (parse_status_closed_iff _)). left.
    exists ["Lec 1 Open: 2 of 9 left"], "Lab 1 Class Full", [row_long_open].
    split; [reflexivity|]. split; [right; reflexivity|].
    intros r [<-|[]]. reflexivity.
Defined.

End Verdicts.

Section Extraction.

Import Monitor.

Lemma not_section_not_lec_lab (line : string) :
  starts_section line = false -> starts_lec_lab line = false.
Proof.
  unfold starts_section, starts_lec_lab. intros H.
  apply orb_false_iff in H as [H _]. exact H.
Qed.

Lemma rows_loop_count_bounded (n : nat) :
  forall lines,
    List.length lines <= n ->
    List.length (rows_loop lines) =
    List.length (filter (fun l => starts_lec_lab (Str.strip l)) lines).
Proof.
  induction n as [|n IH]; intros [|line rest] Hlen; simpl in Hlen;
    try reflexivity; try lia.
  cbn [rows_loop filter].
  destruct (Str.is_empty (Str.strip line)) eqn:Ee.
  - destruct (Str.strip line); [|discriminate]. cbn. apply IH. lia.
  - destruct (starts_lec_lab (Str.strip line)) eqn:El; [|apply IH; lia].
    destruct rest as [|next rest']; [reflexivity|].
    destruct (negb (Str.is_empty (Str.strip next))
              && negb (starts_section (Str.strip next))) eqn:E.
    + apply andb_true_iff in E as [_ E]. apply negb_true_iff in E.
      cbn [filter List.length]. rewrite (not_section_not_lec_lab _ E).
      f_equal. apply IH. simpl in Hlen. lia.
    + cbn [List.length]. f_equal. apply IH. lia.
Qed.

(** X3: the extractor emits exactly one row for each content line that
    starts, once trimmed and case-insensitively, with lec or lab: such a
    line is never swallowed as the status line of the row before it. *)
Theorem one_row_per_section_line (block : string) :
  List.length (_get_lec_lab_rows block) =
  List.length (filter (fun l => starts_lec_lab (Str.strip l)) (content_lines block)).
Proof. apply (rows_loop_count_bounded _ _ (le_n _)). Qed.

(** X4: a status line is joined to a lecture or lab line only when it
    comes right after it: with a blank line in between, the row is the
    section line alone and the status line that follows is dropped, unless
    it starts a lecture or lab row itself. *)
Theorem blank_line_cuts_status (l1 l2 l3 : string) (rest : list string) :
  starts_lec_lab (Str.strip l1) = true ->
  Str.strip l2 = "" ->
  starts_lec_lab (Str.strip l3) = false ->
  rows_loop (l1 :: l2 :: l3 :: rest) = Str.strip l1 :: rows_loop rest.
Proof.
  intros H1 H2 H3. cbn [rows_loop].
  rewrite (lec_lab_nonempty _ H1), H1, H2, H3. cbn.
  now destruct (Str.is_empty (Str.strip l3)).
Qed.

Lemma blank_line_cuts_status_witness :
  rows_loop ["Lec 1"; "  "; "Open: 5 of 20 left"; "Lab 2"; "Closed"]
  = Str.strip "Lec 1" :: rows_loop ["Lab 2"; "Closed"].
Proof. apply blank_line_cuts_status; reflexivity. Defined.

End Extraction.

Section Blocks.

Import Monitor.

Lemma span_all_then (p : ascii -> bool) (a : string) (c : ascii) (b : string) :
  fst (Str.span p a) = a -> p c = false ->
  Str.span p (a ++ String c b) = (a, String c b).
Proof.
  intros Ha Hc. induction a as [|d a IH]; simpl in *.
  - now rewrite Hc.
  - destruct (p d); [|discriminate].
    destruct (Str.span p a) as [x y] eqn:E. simpl in Ha.
    inversion Ha as [Hx]. rewrite Hx in *. now rewrite (IH eq_refl).
Qed.

Lemma span_fst_idem (p : ascii -> bool) (s : string) :
  fst (Str.span p (fst (Str.span p s))) = fst (Str.span p s).
Proof.
  induction s as [|c s IH]; simpl; [reflexivity|].
  destruct (p c) eqn:E; [|reflexivity].
  destruct (Str.span p s) as [a b]. simpl in *. rewrite E.
  destruct (Str.span p a) as [a' b']. simpl in *. now f_equal.
Qed.

Lemma lit_ci_app (p s m r : string) :
  Re.lit_ci p s = Some (m, r) -> forall r', Re.lit_ci p (m ++ r') = Some (m, r').
Proof.
  revert s m r; induction p as [|a p IH]; intros s m r H r'; simpl in H.
  - inversion H. reflexivity.
  - destruct s as [|b s]; [discriminate|].
    destruct (Ascii.eqb (Char.lower a) (Char.lower b)) eqn:E; [|discriminate].
    destruct (Re.lit_ci p s) as [[m' r0]|] eqn:E'; [|discriminate].
    inversion H; subst. cbn [append Re.lit_ci]. rewrite E.
    now rewrite (IH _ _ _ E' r').
Qed.

Lemma lit_ci_head (a : ascii) (p s m r : string) :
  Re.lit_ci (String a p) s = Some (m, r) ->
  exists b m', m = String b m'
               /\ Ascii.eqb (Char.lower a) (Char.lower b) = true.
Proof.
  cbn [Re.lit_ci]. destruct s as [|b s]; [discriminate|].
  destruct (Ascii.eqb (Char.lower a) (Char.lower b)) eqn:E; [|discriminate].
  destruct (Re.lit_ci p s) as [[m' r']|]; [|discriminate].
  intros H. inversion H; subst. eauto.
Qed.

Lemma lower_c_visible (b : ascii) :
  Ascii.eqb (Char.lower "C") (Char.lower b) = true -> Char.isspace b = false.
Proof.
  destruct b as [[] [] [] [] [] [] [] []]; vm_compute; congruence.
Qed.

Lemma rstrip_keeps (a : string) (c : ascii) (b : string) :
  Char.isspace c = false ->
  exists b', Str.rstrip (a ++ String c b) = a ++ String c b'.
Proof.
  intros Hc. induction a as [|d a [b' IH]].
  - apply rstrip_head, Hc.
  - exists b'. cbn [append Str.rstrip]. rewrite IH.
    destruct a; reflexivity.
Qed.

(** A header followed by anything, once trimmed, still starts with a
    header. *)
Lemma strip_header (h r0 content : string) :
  Re.match_header (h ++ r0) = Some (h, r0) ->
  exists h' rest, Re.match_header (Str.strip (h ++ content)) = Some (h', rest).
Proof.
  unfold Re.match_header at 1.
  destruct (Re.lit_ci "Class " (h ++ r0)) as [[m r1]|] eqn:E; [|discriminate].
  pose proof (span_split Char.isdigit r1) as H1.
  pose proof (span_fst_idem Char.isdigit r1) as Hd.
  destruct (Str.span Char.isdigit r1) as [ds r2]. simpl in H1, Hd.
  destruct (Str.is_empty ds) eqn:Ee; [discriminate|].
  destruct r2 as [|c r3]; [discriminate|].
  destruct (Ascii.eqb c ":") eqn:Ec; [|discriminate].
  apply Ascii.eqb_eq in Ec. subst c.
  destruct (Str.span Char.isspace r3) as [ws r4].
  intros H. inversion H as [[Hh Hr]]. clear H.
  assert (Hm : exists b m', m = String b m' /\ Char.isspace b = false).
  { destruct (lit_ci_head _ _ _ _ _ E) as (b & m' & -> & Hb).
    eauto using lower_c_visible. }
  destruct Hm as (b & m' & -> & Hb).
  assert (Hx : h ++ content = (String b m' ++ ds) ++ String ":" (ws ++ content)).
  { rewrite <- Hh. rewrite !app_assoc. reflexivity. }
  rewrite Hh. unfold Str.strip. rewrite Hx.
  cbn [append]. rewrite lstrip_visible by exact Hb.
  change (String b ((m' ++ ds) ++ String ":" (ws ++ content)))
    with ((String b m' ++ ds) ++ String ":" (ws ++ content)).
  destruct (rstrip_keeps (String b m' ++ ds) ":" (ws ++ content) eq_refl)
    as [tail ->].
  unfold Re.match_header. rewrite app_assoc.
  rewrite (lit_ci_app _ _ _ _ E).
  rewrite (span_all_then Char.isdigit ds ":" tail Hd eq_refl). rewrite Ee.
  cbn. destruct (Str.span Char.isspace tail). eauto.
Qed.

Lemma split_go_nonempty (fuel : nat) (pending s : string) :
  Re.split_go fuel pending s <> [].
Proof.
  revert pending s; induction fuel as [|f IH]; intros p s; simpl; [discriminate|].
  destruct (Re.match_header s) as [[h rest]|]; [discriminate|].
  destruct s; [discriminate|apply IH].
Qed.

Lemma blocks_of_split_go (fuel : nat) :
  forall pending s block,
    In block (blocks_loop (tl (Re.split_go fuel pending s))) ->
    exists h r0 content,
      block = Str.strip (h ++ content)
      /\ Re.match_header (h ++ r0) = Some (h, r0).
Proof.
  induction fuel as [|f IH]; intros p s block; simpl; [contradiction|].
  destruct (Re.match_header s) as [[h rest]|] eqn:E.
  - cbn [tl]. pose proof (split_go_nonempty f "" rest) as Hne.
    pose proof (IH "" rest block) as IH'.
    destruct (Re.split_go f "" rest) as [|c more]; [congruence|].
    cbn [blocks_loop tl] in *. intros [<-|H]; [|auto].
    destruct (match_header_split _ _ _ E) as [Hs _]. rewrite Hs in E. eauto.
  - destruct s as [|c s]; [contradiction|]. apply IH.
Qed.

(** X5: every block of the segmenter starts with a header of the form
    Class N: (so it is not empty), is trimmed, and is a contiguous piece of
    the page. *)
Theorem class_blocks_wellformed (page_text block : string) :
  In block (_get_class_blocks page_text) ->
  (exists h rest, Re.match_header block = Some (h, rest))
  /\ block <> ""
  /\ Str.strip block = block
  /\ Substr block page_text.
Proof.
  intros H.
  assert (Hh : exists h rest, Re.match_header block = Some (h, rest)).
  { destruct (blocks_of_split_go _ _ _ _ H) as (h & r0 & content & -> & Hm).
    now apply (strip_header h r0). }
  split; [exact Hh|]. split; [|split].
  - intros ->. destruct Hh as (h & rest & Hm). discriminate.
  - now apply (class_blocks_trimmed page_text).
  - now apply class_blocks_Substr.
Qed.

Lemma class_blocks_wellformed_witness :
  (exists h rest, Re.match_header ("class 22:" ++ nl ++ "B - Biology") = Some (h, rest))
  /\ "class 22:" ++ nl ++ "B - Biology" <> ""
  /\ Str.strip ("class 22:" ++ nl ++ "B - Biology") = "class 22:" ++ nl ++ "B - Biology"
  /\ Substr ("class 22:" ++ nl ++ "B - Biology")
            (page_aero ++ nl ++ "  class 22:" ++ nl ++ "B - Biology" ++ nl).
Proof.
  apply class_blocks_wellformed. vm_compute. tauto.
Defined.

End Blocks.

(** ** Further properties of the lookup and of the poll loop *)

Section Evidence.

Import Monitor.

Lemma take_length (n : nat) (s : string) : String.length (Str.take n s) <= n.
Proof.
  revert s; induction n as [|n IH]; intros [|c s]; simpl; try lia.
  specialize (IH s). lia.
Qed.

Lemma take_prefix (n : nat) (s : string) : exists y, s = Str.take n s ++ y.
Proof.
  revert s; induction n as [|n IH]; intros [|c s]; simpl; eauto.
  destruct (IH s) as [y Hy]. exists y. now f_equal.
Qed.

Lemma Substr_nil (s : string) : Substr "" s.
Proof. now exists "", s. Qed.

Lemma verdict_label_forms (label : string) (verdict : string * option N) :
  exists what, verdict_label label verdict = fmt label what /\ verdict_text what.
Proof.
  assert (Hclosed : exists what,
             fmt label "CLOSED" = fmt label what /\ verdict_text what).
  { exists "CLOSED". split; [reflexivity|]. right; left; reflexivity. }
  destruct verdict as [status count]. unfold verdict_label.
  destruct (String.eqb status "closed"); [exact Hclosed|].
  destruct (String.eqb status "open"), (String.eqb status "waitlist"),
    count as [n|]; cbn [andb is_not_none str_count]; try exact Hclosed.
  - exists (Str.of_int n ++ " SEATS OPEN"). split; [reflexivity|].
    right; right; left. now exists n.
  - exists (Str.of_int n ++ " SEATS OPEN"). split; [reflexivity|].
    right; right; left. now exists n.
  - exists (Str.of_int n ++ " WAITLIST SEATS"). split; [reflexivity|].
    right; right; right. now exists n.
Qed.

(** X6: when the page is read and the result is not the ERROR form, the
    evidence is empty or the first 600 characters of the first matching
    block; it is then never longer than 600 characters and always a
    contiguous piece of the page.  When the result is the ERROR form, the
    evidence is the error text of a pooled row whose count [int]
    refused. *)
Theorem evidence_bounded (w : World) (page_text label class_code : string) :
  body_text w = Ok page_text ->
  (fst (fst (get_course_availability w label class_code)) = fmt label "ERROR"
   /\ exists first others row,
       matching page_text class_code = first :: others
       /\ In row (flat_map _get_lec_lab_rows (first :: others))
       /\ row_error row
          = Some (snd (fst (get_course_availability w label class_code))))
  \/ (fst (fst (get_course_availability w label class_code)) <> fmt label "ERROR"
      /\ String.length (snd (fst (get_course_availability w label class_code))) <= 600
      /\ Substr (snd (fst (get_course_availability w label class_code))) page_text
      /\ (snd (fst (get_course_availability w label class_code)) = ""
          \/ exists first others,
              matching page_text class_code = first :: others
              /\ snd (fst (get_course_availability w label class_code))
                 = Str.take 600 first)).
Proof.
  intros Hw.
  destruct (lookup w label class_code) as [[lbl ev]|e] eqn:El.
  2:{ left. rewrite (availability_raise _ _ _ _ El). cbn [fst snd].
      split; [reflexivity|].
      destruct (lookup_raise_origin w page_text label class_code e Hw El)
        as (first & others & row & Hm & Hin & _ & He).
      exists first, others, row. split; [exact Hm|]. split; [exact Hin|exact He]. }
  right. rewrite (availability_ok _ _ _ _ El). cbn [fst snd].
  assert (Hlbl : lbl <> fmt label "ERROR").
  { destruct (lookup_verdict w page_text label class_code Hw)
      as [(what & ev' & E' & Hv)|[e E']]; [|congruence].
    assert (H : lbl = fmt label what) by congruence. rewrite H.
    intros Hf. apply fmt_inj in Hf. now apply (verdict_not_error what). }
  split; [exact Hlbl|].
  destruct (matching page_text class_code) as [|first others] eqn:Hm.
  - rewrite (lookup_no_block _ _ _ _ Hw Hm) in El. inversion El.
    cbn. split; [lia|]. split; [apply Substr_nil|now left].
  - assert (Hev : ev = Str.take 600 first).
    { destruct (flat_map _get_lec_lab_rows (first :: others)) as [|r rs] eqn:Hr.
      - rewrite (lookup_no_rows _ _ _ _ _ _ Hw Hm Hr) in El. now inversion El.
      - rewrite (lookup_status w _ label _ _ _ Hw Hm) in El
          by (rewrite Hr; discriminate).
        destruct (_parse_lec_lab_status (flat_map _get_lec_lab_rows (first :: others)));
          cbn [bind] in El; [now inversion El|discriminate]. }
    rewrite Hev. split; [apply take_length|]. split; [|eauto].
    apply (Substr_trans _ first).
    + destruct (take_prefix 600 first) as [y Hy]. now exists "", y.
    + apply class_blocks_Substr.
      assert (H : In first (matching page_text class_code))
        by (rewrite Hm; now left).
      now apply filter_In in H as [H _].
Qed.

Lemma evidence_bounded_witness :
  ((fst (fst (get_course_availability (browser page_aero) "AERO" "A")) = fmt "AERO" "ERROR"
    /\ exists first others row,
        matching page_aero "A" = first :: others
        /\ In row (flat_map _get_lec_lab_rows (first :: others))
        /\ row_error row = Some (snd (fst (get_course_availability (browser page_aero) "AERO" "A"))))
   \/ (fst (fst (get_course_availability (browser page_aero) "AERO" "A")) <> fmt "AERO" "ERROR"
       /\ String.length (snd (fst (get_course_availability (browser page_aero) "AERO" "A"))) <= 600
       /\ Substr (snd (fst (get_course_availability (browser page_aero) "AERO" "A"))) page_aero
       /\ (snd (fst (get_course_availability (browser page_aero) "AERO" "A")) = ""
           \/ exists first others,
               matching page_aero "A" = first :: others
               /\ snd (fst (get_course_availability (browser page_aero) "AERO" "A")) = Str.take 600 first)))
  /\
  ((fst (fst (get_course_availability (browser page_long) "AERO" "A")) = fmt "AERO" "ERROR"
    /\ exists first others row,
        matching page_long "A" = first :: others
        /\ In row (flat_map _get_lec_lab_rows (first :: others))
        /\ row_error row = Some (snd (fst (get_course_availability (browser page_long) "AERO" "A"))))
   \/ (fst (fst (get_course_availability (browser page_long) "AERO" "A")) <> fmt "AERO" "ERROR"
       /\ String.length (snd (fst (get_course_availability (browser page_long) "AERO" "A"))) <= 600
       /\ Substr (snd (fst (get_course_availability (browser page_long) "AERO" "A"))) page_long
       /\ (snd (fst (get_course_availability (browser page_long) "AERO" "A")) = ""
           \/ exists first others,
               matching page_long "A" = first :: others
               /\ snd (fst (get_course_availability (browser page_long) "AERO" "A")) = Str.take 600 first))).
Proof.
  split; apply evidence_bounded; reflexivity.
Defined.

Example evidence_of_long_count :
  snd (fst (get_course_availability (browser page_long) "AERO" "A"))
  = Str.int_limit_error 4301.
Proof. vm_compute. reflexivity. Qed.

(** X7: when some block matches and the pooled rows are not empty, the
    label spells the verdict of the classifier: CLOSED for closed, the
    count in decimal followed by SEATS OPEN for open and by WAITLIST SEATS
    for waitlist; the evidence is the start of the first matching block. *)
Theorem label_follows_verdict
        (w : World) (page_text label class_code first : string)
        (others : list string) (n : N) :
  body_text w = Ok page_text ->
  matching page_text class_code = first :: others ->
  let rows := flat_map _get_lec_lab_rows (first :: others) in
  rows <> [] ->
  (_parse_lec_lab_status rows = Ok ("closed", None) ->
   fst (get_course_availability w label class_code)
   = (fmt label "CLOSED", Str.take 600 first))
  /\ (_parse_lec_lab_status rows = Ok ("open", Some n) ->
      fst (get_course_availability w label class_code)
      = (fmt label (Str.of_int n ++ " SEATS OPEN"), Str.take 600 first))
  /\ (_parse_lec_lab_status rows = Ok ("waitlist", Some n) ->
      fst (get_course_availability w label class_code)
      = (fmt label (Str.of_int n ++ " WAITLIST SEATS"), Str.take 600 first)).
Proof.
  intros Hw Hm rows Hr.
  pose proof (lookup_status w _ label _ _ _ Hw Hm Hr) as H. fold rows in H.
  split; [|split]; intros E; rewrite E in H; cbn [bind] in H;
    rewrite (availability_ok _ _ _ _ H); reflexivity.
Qed.

Lemma label_follows_verdict_witness :
  let head := "Class 4:" ++ nl ++ "61 - Linear Algebra" ++ nl ++ "Lec 2" ++ nl in
  fst (get_course_availability (browser (head ++ "Closed")) "M61" "61")
  = ("[M61 - CLOSED]", head ++ "Closed")
  /\ fst (get_course_availability (browser (head ++ "Open: 7 of 20 left")) "M61" "61")
     = ("[M61 - 7 SEATS OPEN]", head ++ "Open: 7 of 20 left")
  /\ fst (get_course_availability (browser (head ++ "Waitlist: 12 of 20")) "M61" "61")
     = ("[M61 - 12 WAITLIST SEATS]", head ++ "Waitlist: 12 of 20").
Proof.
  intros head. split; [|split].
  - apply (proj1 (label_follows_verdict (browser (head ++ "Closed"))
                    (head ++ "Closed") "M61" "61" (head ++ "Closed") [] 0%N
                    eq_refl eq_refl ltac:(vm_compute; discriminate))).
    reflexivity.
  - apply (proj1 (proj2 (label_follows_verdict
                    (browser (head ++ "Open: 7 of 20 left"))
                    (head ++ "Open: 7 of 20 left") "M61" "61"
                    (head ++ "Open: 7 of 20 left") [] 7%N
                    eq_refl eq_refl ltac:(vm_compute; discriminate)))).
    reflexivity.
  - apply (proj2 (proj2 (label_follows_verdict
                    (browser (head ++ "Waitlist: 12 of 20"))
                    (head ++ "Waitlist: 12 of 20") "M61" "61"
                    (head ++ "Waitlist: 12 of 20") [] 12%N
                    eq_refl eq_refl ltac:(vm_compute; discriminate)))).
    reflexivity.
Defined.

End Evidence.

Section Gate.

Import Monitor.

Lemma digits_string_of_uint (d : Decimal.uint) :
  digits (NilEmpty.string_of_uint d) = true.
Proof. induction d; simpl; auto. Qed.

Lemma digits_of_int (n : N) : digits (Str.of_int n) = true.
Proof.
  unfold Str.of_int, NilZero.string_of_uint.
  destruct (N.to_uint n); try reflexivity; apply digits_string_of_uint.
Qed.

(** A pattern that starts with a letter does not occur among digits. *)
Lemma contains_digits (a : ascii) (p' ds : string) :
  Char.isdigit a = false -> digits ds = true ->
  Str.contains (String a p') ds = false.
Proof.
  intros Ha. induction ds as [|c ds IH]; intros Hd; [reflexivity|].
  cbn [digits] in Hd. apply andb_true_iff in Hd as [Hc Hd].
  cbn [Str.contains Str.startswith]. rewrite (IH Hd), orb_false_r.
  destruct (Ascii.eqb a c) eqn:E; [|reflexivity].
  apply Ascii.eqb_eq in E. congruence.
Qed.

Lemma no_overlap_closed_dash (x : string) :
  no_overlap "CLOSED" (String " " (String "-" x)).
Proof. overlap. Qed.

Lemma no_overlap_not_found_dash (x : string) :
  no_overlap "NOT FOUND" (String " " (String "-" x)).
Proof. overlap. Qed.

Lemma no_overlap_closed_seats : no_overlap "CLOSED" " SEATS OPEN]".
Proof. overlap. Qed.

Lemma no_overlap_not_found_seats : no_overlap "NOT FOUND" " SEATS OPEN]".
Proof. overlap. Qed.

Lemma no_overlap_closed_waitlist : no_overlap "CLOSED" " WAITLIST SEATS]".
Proof. overlap. Qed.

Lemma no_overlap_not_found_waitlist : no_overlap "NOT FOUND" " WAITLIST SEATS]".
Proof. overlap. Qed.

(** Neither gate word occurs in a label followed by a count and a tail
    that does not hold it. *)
Lemma gate_word_absent (p' : string) (a : ascii) (label tail : string) (n : N) :
  Char.isdigit a = false ->
  Ascii.eqb a "[" = false -> Ascii.eqb a " " = false -> Ascii.eqb a "-" = false ->
  (forall x, no_overlap (String a p') (String " " (String "-" x))) ->
  no_overlap (String a p') tail ->
  Str.contains (String a p') tail = false ->
  Str.contains (String a p') label = false ->
  Str.contains (String a p')
    (String "[" (label ++ String " " (String "-" (String " " (Str.of_int n ++ tail)))))
  = false.
Proof.
  intros Hd H1 H2 H3 Hov Hovt Ht Hl.
  rewrite (contains_skip_first _ a "[" p') by auto.
  apply contains_app_suffix; [apply Hov| |exact Hl].
  rewrite (contains_skip_first _ a " " p') by auto.
  rewrite (contains_skip_first _ a "-" p') by auto.
  rewrite (contains_skip_first _ a " " p') by auto.
  apply contains_app_suffix; [exact Hovt|exact Ht|].
  apply contains_digits; [exact Hd|apply digits_of_int].
Qed.

Lemma fmt_contains (label what : string) :
  Str.contains what (fmt label what) = true.
Proof.
  apply contains_complete. exists ("[" ++ label ++ " - "), "]".
  unfold fmt. now rewrite !app_assoc.
Qed.

(** X8: for a display name that contains neither CLOSED nor NOT FOUND, every
    OPEN and every WAITLIST result, whatever the count, passes the test
    that guards the notification; a CLOSED or NOT FOUND result passes it for
    no display name at all. *)
Theorem gate_by_verdict (label : string) (n : N) :
  (Str.contains "CLOSED" label = false ->
   Str.contains "NOT FOUND" label = false ->
   available (fmt label (Str.of_int n ++ " SEATS OPEN")) = true
   /\ available (fmt label (Str.of_int n ++ " WAITLIST SEATS")) = true)
  /\ available (fmt label "CLOSED") = false
  /\ available (fmt label "NOT FOUND") = false.
Proof.
  split; [|split].
  - intros Hc Hn. unfold available, fmt.
    change ("[" ++ label ++ " - " ++ (Str.of_int n ++ " SEATS OPEN") ++ "]")
      with (String "[" (label ++ String " " (String "-" (String " "
              ((Str.of_int n ++ " SEATS OPEN") ++ "]"))))).
    change ("[" ++ label ++ " - " ++ (Str.of_int n ++ " WAITLIST SEATS") ++ "]")
      with (String "[" (label ++ String " " (String "-" (String " "
              ((Str.of_int n ++ " WAITLIST SEATS") ++ "]"))))).
    rewrite !app_assoc.
    change (" SEATS OPEN" ++ "]") with " SEATS OPEN]".
    change (" WAITLIST SEATS" ++ "]") with " WAITLIST SEATS]".
    rewrite !(gate_word_absent "LOSED" "C" label _ n) by
      (first [reflexivity | exact Hc | intros x; apply no_overlap_closed_dash
             | apply no_overlap_closed_seats | apply no_overlap_closed_waitlist]).
    rewrite !(gate_word_absent "OT FOUND" "N" label _ n) by
      (first [reflexivity | exact Hn | intros x; apply no_overlap_not_found_dash
             | apply no_overlap_not_found_seats
             | apply no_overlap_not_found_waitlist]).
    split; reflexivity.
  - unfold available. now rewrite fmt_contains.
  - unfold available. rewrite (fmt_contains label "NOT FOUND").
    apply andb_false_r.
Qed.

Lemma gate_by_verdict_witness :
  available (fmt "SCAND60" (Str.of_int 1234567 ++ " SEATS OPEN")) = true
  /\ available (fmt "SCAND60" (Str.of_int 1234567 ++ " WAITLIST SEATS")) = true.
Proof. apply (proj1 (gate_by_verdict "SCAND60" 1234567)); reflexivity. Defined.

End Gate.

Section PollLoop.

Import Monitor.

Lemma availability_shape (w : World) (label class_code : string) :
  exists what evidence w',
    get_course_availability w label class_code = ((fmt label what, evidence), w')
    /\ body_text w' = body_text w /\ posted w' = posted w.
Proof.
  destruct (lookup w label class_code) as [[lbl ev]|e] eqn:E.
  - assert (Hl : exists what, lbl = fmt label what).
    { destruct (body_text w) as [page_text|e] eqn:Hw.
      - destruct (lookup_verdict w page_text label class_code Hw)
          as [(what & ev' & E' & _)|[e E']]; [|congruence].
        exists what. congruence.
      - rewrite (lookup_raises _ _ _ _ Hw) in E. discriminate. }
    destruct Hl as [what ->].
    exists what, ev, w. now rewrite (availability_ok _ _ _ _ E).
  - exists "ERROR", e. eexists. rewrite (availability_raise _ _ _ _ E).
    split; [reflexivity|]. now split.
Qed.

(** What one course adds to the messages handed over. *)
Lemma poll_step (channel label class_code : string) (w : World) :
  exists what news,
    body_text (poll channel [(label, class_code)] w) = body_text w
    /\ posted (poll channel [(label, class_code)] w) = (posted w ++ news)%list
    /\ (news = [] \/ (news = ["*" ++ fmt label what ++ "*"]
                      /\ available (fmt label what) = true)).
Proof.
  destruct (availability_shape w label class_code)
    as (what & ev & w' & E & Hb & Hp).
  exists what. cbn [poll]. rewrite E.
  destruct (available (fmt label what)) eqn:Ha.
  - exists ["*" ++ fmt label what ++ "*"]. cbn. rewrite Hb, Hp. auto.
  - exists []. rewrite Hb, Hp, List.app_nil_r. auto.
Qed.

Lemma poll_cons (channel : string) (c : string * string)
      (courses : list (string * string)) (w : World) :
  poll channel (c :: courses) w = poll channel courses (poll channel [c] w).
Proof.
  destruct c as [label class_code]. cbn [poll].
  destruct (get_course_availability w label class_code) as [[status ev] w1].
  reflexivity.
Qed.

Lemma poll_news (channel : string) (courses : list (string * string))
        (w : World) :
  exists news,
    body_text (poll channel courses w) = body_text w
    /\ posted (poll channel courses w) = (posted w ++ news)%list
    /\ List.length news <= List.length courses
    /\ forall msg, In msg news ->
         exists label class_code what,
           In (label, class_code) courses
           /\ msg = "*" ++ fmt label what ++ "*"
           /\ available (fmt label what) = true.
Proof.
  revert w; induction courses as [|[label class_code] courses IH]; intros w.
  - exists []. cbn. rewrite List.app_nil_r. repeat split; auto. contradiction.
  - rewrite poll_cons.
    destruct (poll_step channel label class_code w)
      as (what & n1 & Hb1 & Hp1 & Hn1).
    destruct (IH (poll channel [(label, class_code)] w))
      as (n2 & Hb2 & Hp2 & Hl2 & Hm2).
    exists (n1 ++ n2)%list. rewrite Hb2, Hb1, Hp2, Hp1, List.app_assoc.
    split; [reflexivity|]. split; [reflexivity|]. split.
    + rewrite List.length_app. cbn [List.length].
      destruct Hn1 as [->|[-> _]]; simpl; lia.
    + intros msg Hin. apply in_app_or in Hin as [Hin|Hin].
      * destruct Hn1 as [->|[-> Ha]]; [contradiction|].
        destruct Hin as [<-|[]]. exists label, class_code, what.
        split; [now left|auto].
      * destruct (Hm2 _ Hin) as (l & c & wh & H1 & H2 & H3).
        exists l, c, wh. split; [now right|auto].
Qed.

(** X10: the poll loop does not touch the page and keeps the messages
    handed over before; it adds at most one message per course, in course
    order, and each has the form *[label - verdict]* for a tracked label
    and passes the test that guards the notification. *)
Theorem poll_adds_messages (channel : string) (courses : list (string * string))
        (w : World) :
  exists news,
    body_text (poll channel courses w) = body_text w
    /\ posted (poll channel courses w) = (posted w ++ news)%list
    /\ List.length news <= List.length courses
    /\ forall msg, In msg news ->
         exists label class_code what,
           In (label, class_code) courses
           /\ msg = "*" ++ fmt label what ++ "*"
           /\ available (fmt label what) = true.
Proof. apply poll_news. Qed.

Lemma poll_adds_messages_witness :
  exists news,
    body_text (poll "#ucla" COURSES (browser page_zero)) = body_text (browser page_zero)
    /\ posted (poll "#ucla" COURSES (browser page_zero))
       = (posted (browser page_zero) ++ news)%list
    /\ List.length news <= List.length COURSES
    /\ forall msg, In msg news ->
         exists label class_code what,
           In (label, class_code) COURSES
           /\ msg = "*" ++ fmt label what ++ "*"
           /\ available (fmt label what) = true.
Proof. apply poll_adds_messages. Defined.

(** X11: on a page without any class header, such as a login or error
    page, every course is NOT FOUND and the poll loop leaves the world as
    it is: nothing is posted and nothing is logged. *)
Theorem poll_quiet_without_headers
        (channel : string) (courses : list (string * string))
        (w : World) (page_text : string) :
  body_text w = Ok page_text ->
  no_header page_text ->
  poll channel courses w = w.
Proof.
  intros Hw Hno. induction courses as [|[label class_code] courses IH];
    [reflexivity|].
  cbn [poll].
  assert (Hm : matching page_text class_code = []).
  { unfold matching. now rewrite (class_blocks_no_header _ Hno). }
  rewrite (availability_ok _ _ _ _ (lookup_no_block _ _ label _ Hw Hm)).
  unfold available. rewrite (fmt_contains label "NOT FOUND"), andb_false_r.
  exact IH.
Qed.

Lemma poll_quiet_without_headers_witness :
  poll "#ucla" COURSES (browser "Sign in") = browser "Sign in".
Proof.
  apply (poll_quiet_without_headers "#ucla" COURSES (browser "Sign in") "Sign in").
  - reflexivity.
  - intros i. do 7 (destruct i as [|i]; [reflexivity|]). destruct i; reflexivity.
Defined.



End PollLoop.

(** ** The Slack client *)

Section SlackClient.

Import Slack.

Lemma truthy_some (o : option string) :
  truthy o = true -> exists v, o = Some v /\ Str.is_empty v = false.
Proof.
  destruct o as [v|]; [|discriminate]. simpl. intros H.
  apply negb_true_iff in H. eauto.
Qed.

(** X13: [from_env] takes an explicit, non-empty token as it is and
    otherwise reads SLACK_BOT_TOKEN, raising the KeyError of that name when
    it is not set; an explicit non-empty user or channel wins over the
    environment, an empty one counts as absent; and the new client has no
    cached DM channel. *)
Theorem from_env_resolution (env : Env) (token user chan : option string) :
  (truthy token = false -> env ENV_BOT_TOKEN = None ->
   from_env env token user chan = Raise "'SLACK_BOT_TOKEN'")
  /\ (forall t, (token = Some t /\ t <> "")
                \/ (truthy token = false /\ env ENV_BOT_TOKEN = Some t) ->
        from_env env token user chan =
        Ok (mkClient t
              (if truthy user then user else env ENV_USER_ID)
              (if truthy chan then chan else env ENV_CHANNEL)
              None)).
Proof.
  unfold from_env, environ_item, py_or, __init__. split.
  - intros Ht He. rewrite He. destruct token as [[|c t]|]; try reflexivity.
    discriminate.
  - intros t [[-> Hne]|[Ht He]].
    + destruct t; [congruence|reflexivity].
    + rewrite He. destruct token as [[|c t']|]; try reflexivity. discriminate.
Qed.

Lemma from_env_resolution_witness :
  from_env (fun _ => None) (Some "") (Some "U1") None = Raise "'SLACK_BOT_TOKEN'"
  /\ from_env env_main None (Some "") None =
     Ok (mkClient "xoxb-1" (Some "U07") (Some "#ucla") None)
  /\ from_env env_main (Some "xoxb-2") (Some "U99") None =
     Ok (mkClient "xoxb-2" (Some "U99") (Some "#ucla") None).
Proof.
  split; [|split].
  - apply (proj1 (from_env_resolution (fun _ => None) (Some "") (Some "U1") None));
      reflexivity.
  - apply (proj2 (from_env_resolution env_main None (Some "") None) "xoxb-1").
    right. split; reflexivity.
  - apply (proj2 (from_env_resolution env_main (Some "xoxb-2") (Some "U99") None)
                 "xoxb-2").
    left. split; [reflexivity|discriminate].
Defined.

Lemma post_channel_frame (text ch : string) (s : State) :
  channel (client s) = Some ch -> ch <> "" ->
  let req := channel_request (client s) ch text in
  sent (snd (post text None s)) = (sent s ++ [req])%list
  /\ client (snd (post text None s)) = client s
  /\ server (snd (post text None s)) = server s
  /\ fst (post text None s) =
     match server s (sent s) req with
     | Ok data => ok data
     | Raise _ => false
     end.
Proof.
  intros Hc Hne. unfold post, _get_channel, py_or, channel_request, http_post.
  rewrite Hc. destruct ch as [|c0 ch]; [congruence|]. cbn [truthy Str.is_empty negb].
  destruct (dm_user_id (client s)) as [[|d u]|] eqn:Hd;
    cbn [truthy Str.is_empty negb fst snd];
    match goal with
    | |- context [server s (sent s) ?r] =>
        destruct (server s (sent s) r) as [data|e]
    end; cbn; try destruct (ok data); cbn; auto.
Qed.

(** X14: a client with a channel sends every message in one
    chat.postMessage request to that channel, the text prefixed with a
    ping of its user when it has one; it never opens a DM conversation,
    does not change, and returns whether the server accepted the
    message. *)
Theorem post_channel_mode (text ch : string) (s : State) :
  channel (client s) = Some ch -> ch <> "" ->
  let req := channel_request (client s) ch text in
  sent (snd (post text None s)) = (sent s ++ [req])%list
  /\ client (snd (post text None s)) = client s
  /\ server (snd (post text None s)) = server s
  /\ fst (post text None s) =
     match server s (sent s) req with
     | Ok data => ok data
     | Raise _ => false
     end.
Proof. apply post_channel_frame. Qed.

Lemma post_channel_mode_witness :
  let s := mkState (mkClient "xoxb-1" (Some "U07") (Some "#ucla") None)
                   friendly_server [] [] in
  sent (snd (post "*[AERO - 84 SEATS OPEN]*" None s))
  = [ChatPostMessage "xoxb-1" "#ucla" "<@U07> *[AERO - 84 SEATS OPEN]*"]
  /\ fst (post "*[AERO - 84 SEATS OPEN]*" None s) = true.
Proof.
  intros s.
  destruct (post_channel_mode "*[AERO - 84 SEATS OPEN]*" "#ucla" s eq_refl
              ltac:(discriminate)) as (H1 & _ & _ & H4).
  split; [exact H1|exact H4].
Defined.

(** X15: a client with neither channel nor user sends nothing: [post]
    returns False, whatever the text and the ping asked for, and logs that
    a user is required for DM mode. *)
Theorem post_without_recipient (text : string) (ping : option string) (s : State) :
  truthy (channel (client s)) = false ->
  truthy (dm_user_id (client s)) = false ->
  post text ping s = (false, log_error "dm_user_id required for DM mode" s).
Proof.
  intros Hc Hd. unfold post, _get_channel, _get_dm_channel.
  rewrite Hc, Hd. reflexivity.
Qed.

Lemma post_without_recipient_witness :
  post "hello" (Some "U1") (mkState (mkClient "xoxb-1" None (Some "") None)
                                    friendly_server [] [])
  = (false, mkState (mkClient "xoxb-1" None (Some "") None) friendly_server []
                    ["dm_user_id required for DM mode"]).
Proof. apply post_without_recipient; reflexivity. Defined.

Lemma post_dm_cached (text id u : string) (s : State) :
  truthy (channel (client s)) = false ->
  dm_user_id (client s) = Some u -> u <> "" ->
  _dm_channel_id (client s) = Some id -> id <> "" ->
  let req := ChatPostMessage (bot_token (client s)) id text in
  sent (snd (post text None s)) = (sent s ++ [req])%list
  /\ client (snd (post text None s)) = client s
  /\ server (snd (post text None s)) = server s
  /\ fst (post text None s) =
     match server s (sent s) req with
     | Ok data => ok data
     | Raise _ => false
     end.
Proof.
  intros Hc Hd Hu Hi Hid. unfold post, _get_channel, _get_dm_channel, py_or, http_post.
  rewrite Hc, Hd, Hi. destruct u as [|c0 u]; [congruence|].
  destruct id as [|c1 id]; [congruence|]. cbn [truthy Str.is_empty negb fst snd].
  destruct (server s (sent s) (ChatPostMessage (bot_token (client s)) (String c1 id) text))
    as [data|e]; cbn; try destruct (ok data); cbn; auto.
Qed.

Lemma post_dm_first (text id u : string) (s : State) :
  truthy (channel (client s)) = false ->
  dm_user_id (client s) = Some u -> u <> "" ->
  truthy (_dm_channel_id (client s)) = false ->
  let opening := ConversationsOpen (bot_token (client s)) [u] in
  server s (sent s) opening = Ok (mkReply true None (Ok id)) -> id <> "" ->
  let req := ChatPostMessage (bot_token (client s)) id text in
  sent (snd (post text None s)) = (sent s ++ [opening; req])%list
  /\ client (snd (post text None s)) =
     mkClient (bot_token (client s)) (dm_user_id (client s))
              (channel (client s)) (Some id)
  /\ server (snd (post text None s)) = server s
  /\ fst (post text None s) =
     match server s (sent s ++ [opening])%list req with
     | Ok data => ok data
     | Raise _ => false
     end.
Proof.
  intros Hc Hd Hu Hi opening Ho Hid req.
  unfold post, _get_channel, _get_dm_channel, py_or, http_post.
  rewrite Hc, Hd, Hi. destruct u as [|c0 u]; [congruence|].
  cbn [truthy Str.is_empty negb fst snd].
  fold opening. rewrite Ho. destruct id as [|c1 id]; [congruence|].
  cbn [ok channel_id negb set_dm_channel_id client sent server bot_token
       Str.is_empty errors dm_user_id channel].
  fold req.
  destruct (server s (sent s ++ [opening])%list req) as [data|e]; cbn;
    try destruct (ok data); cbn; rewrite <- List.app_assoc, ?Hd; auto.
Qed.

(** X16: in DM mode the conversation is opened once: when the server
    answers the opening with a channel id, the first message goes out as
    conversations.open followed by chat.postMessage to that id, the id is
    kept, and the next message is one chat.postMessage to the same id.
    The texts are sent as they are, without a ping. *)
Theorem dm_channel_opened_once (t1 t2 id u : string) (s : State) :
  truthy (channel (client s)) = false ->
  dm_user_id (client s) = Some u -> u <> "" ->
  truthy (_dm_channel_id (client s)) = false ->
  server s (sent s) (ConversationsOpen (bot_token (client s)) [u])
  = Ok (mkReply true None (Ok id)) ->
  id <> "" ->
  let s1 := snd (post t1 None s) in
  let s2 := snd (post t2 None s1) in
  sent s2 = (sent s ++ [ConversationsOpen (bot_token (client s)) [u];
                        ChatPostMessage (bot_token (client s)) id t1;
                        ChatPostMessage (bot_token (client s)) id t2])%list
  /\ _dm_channel_id (client s1) = Some id
  /\ client s2 = client s1.
Proof.
  intros Hc Hd Hu Hi Ho Hid s1 s2.
  destruct (post_dm_first t1 id u s Hc Hd Hu Hi Ho Hid) as (H1 & H2 & H3 & _).
  fold s1 in H1, H2, H3.
  assert (Hc1 : truthy (channel (client s1)) = false) by now rewrite H2.
  assert (Hd1 : dm_user_id (client s1) = Some u) by now rewrite H2.
  assert (Hi1 : _dm_channel_id (client s1) = Some id) by now rewrite H2.
  destruct (post_dm_cached t2 id u s1 Hc1 Hd1 Hu Hi1 Hid) as (K1 & K2 & _).
  fold s2 in K1, K2. split; [|split; assumption].
  rewrite K1, H1, H2. cbn [bot_token]. now rewrite <- List.app_assoc.
Qed.

Lemma dm_channel_opened_once_witness :
  let s := mkState (mkClient "xoxb-1" (Some "U07") None None)
                   friendly_server [] [] in
  sent (snd (post "second" None (snd (post "first" None s))))
  = [ConversationsOpen "xoxb-1" ["U07"]; ChatPostMessage "xoxb-1" "D1" "first";
     ChatPostMessage "xoxb-1" "D1" "second"].
Proof.
  intros s.
  apply (proj1 (dm_channel_opened_once "first" "second" "D1" "U07" s
                  eq_refl eq_refl ltac:(discriminate) eq_refl eq_refl
                  ltac:(discriminate))).
Defined.

(** X17: in DM mode, when opening the conversation fails (the request
    raises, the server says not ok, or the reply has no channel id),
    [post] returns False after that one request: no message is sent, no id
    is cached, and one error is logged. *)
Theorem dm_open_failure (text u : string) (s : State) :
  truthy (channel (client s)) = false ->
  dm_user_id (client s) = Some u -> u <> "" ->
  truthy (_dm_channel_id (client s)) = false ->
  let opening := ConversationsOpen (bot_token (client s)) [u] in
  (forall data, server s (sent s) opening = Ok data ->
                ok data = false \/ exists e, channel_id data = Raise e) ->
  fst (post text None s) = false
  /\ sent (snd (post text None s)) = (sent s ++ [opening])%list
  /\ client (snd (post text None s)) = client s
  /\ List.length (errors (snd (post text None s))) = S (List.length (errors s)).
Proof.
  intros Hc Hd Hu Hi opening Hfail.
  unfold post, _get_channel, _get_dm_channel, py_or, http_post.
  rewrite Hc, Hd, Hi. destruct u as [|c0 u]; [congruence|].
  cbn [truthy Str.is_empty negb fst snd]. fold opening.
  destruct (server s (sent s) opening) as [data|e] eqn:E.
  - destruct (Hfail data eq_refl) as [Hok|[e He]].
    + rewrite Hok. cbn. rewrite List.length_app. cbn. repeat split; auto. lia.
    + rewrite He. destruct (ok data); cbn; rewrite List.length_app; cbn;
        repeat split; auto; lia.
  - cbn. rewrite List.length_app. cbn. repeat split; auto. lia.
Qed.

Lemma dm_open_failure_witness :
  let s := mkState (mkClient "xoxb-1" (Some "U07") None None) dead_server [] [] in
  fst (post "hello" None s) = false
  /\ sent (snd (post "hello" None s)) = [ConversationsOpen "xoxb-1" ["U07"]]
  /\ client (snd (post "hello" None s)) = client s
  /\ List.length (errors (snd (post "hello" None s))) = 1.
Proof.
  intros s.
  apply (dm_open_failure "hello" "U07" s eq_refl eq_refl ltac:(discriminate) eq_refl).
  intros data H. discriminate.
Defined.

Lemma get_dm_channel_frame (s : State) :
  exists new,
    sent (snd (_get_dm_channel s)) = (sent s ++ new)%list
    /\ (new = [] \/ new = [ConversationsOpen (bot_token (client s))
                             [match dm_user_id (client s) with
                              | Some u => u | None => "" end]])
    /\ bot_token (client (snd (_get_dm_channel s))) = bot_token (client s)
    /\ dm_user_id (client (snd (_get_dm_channel s))) = dm_user_id (client s)
    /\ channel (client (snd (_get_dm_channel s))) = channel (client s)
    /\ server (snd (_get_dm_channel s)) = server s
    /\ (fst (_get_dm_channel s) <> None ->
        errors (snd (_get_dm_channel s)) = errors s).
Proof.
  unfold _get_dm_channel, http_post.
  destruct (truthy (dm_user_id (client s))); cbn [negb].
  2:{ exists []. cbn. rewrite List.app_nil_r. repeat split; auto. congruence. }
  destruct (truthy (_dm_channel_id (client s))).
  { exists []. cbn. rewrite List.app_nil_r. repeat split; auto. }
  eexists. split; [|split; [right; reflexivity|]].
  - destruct (server s (sent s) _) as [data|e]; [|reflexivity].
    destruct (ok data); [|reflexivity]. destruct (channel_id data); reflexivity.
  - destruct (server s (sent s) _) as [data|e]; cbn; [|repeat split; congruence].
    destruct (ok data); cbn; [|repeat split; congruence].
    destruct (channel_id data); cbn; repeat split; congruence.
Qed.

(** X18: whatever the client, the text, the ping and the server, [post]
    only adds to the requests sent, at most an opening followed by one
    message, each with the client's own token; it changes neither the
    token, the user, the channel nor the server; and it returns True only
    after a message request, logging nothing. *)
Theorem post_frame (text : string) (ping : option string) (s : State) :
  exists new,
    sent (snd (post text ping s)) = (sent s ++ new)%list
    /\ List.length new <= 2
    /\ List.length (filter is_message new) <= 1
    /\ (forall req, In req new -> token_of req = bot_token (client s))
    /\ bot_token (client (snd (post text ping s))) = bot_token (client s)
    /\ dm_user_id (client (snd (post text ping s))) = dm_user_id (client s)
    /\ channel (client (snd (post text ping s))) = channel (client s)
    /\ server (snd (post text ping s)) = server s
    /\ (fst (post text ping s) = true ->
        List.length (filter is_message new) = 1
        /\ errors (snd (post text ping s)) = errors s).
Proof.
  assert (Hch : exists pre,
             sent (snd (_get_channel s)) = (sent s ++ pre)%list
             /\ (pre = [] \/ exists us, pre = [ConversationsOpen (bot_token (client s)) us])
             /\ bot_token (client (snd (_get_channel s))) = bot_token (client s)
             /\ dm_user_id (client (snd (_get_channel s))) = dm_user_id (client s)
             /\ channel (client (snd (_get_channel s))) = channel (client s)
             /\ server (snd (_get_channel s)) = server s
             /\ (fst (_get_channel s) <> None ->
                 errors (snd (_get_channel s)) = errors s)).
  { unfold _get_channel. destruct (truthy (channel (client s))).
    - exists []. cbn. rewrite List.app_nil_r. repeat split; auto.
    - destruct (get_dm_channel_frame s) as (new & H1 & H2 & H3).
      exists new. split; [exact H1|]. split; [|exact H3].
      destruct H2 as [-> | ->]; eauto. }
  destruct Hch as (pre & Hs & Hpre & Ht & Hd & Hc & Hsv & He).
  unfold post, http_post.
  destruct (_get_channel s) as [[id|] s1]; cbn [fst snd] in *;
    cbv beta iota zeta.
  2:{ exists pre. cbn [fst snd]. rewrite Hs, Ht, Hd, Hc, Hsv.
      destruct Hpre as [->|[us ->]]; cbn; repeat split; auto; try lia;
        try discriminate; try contradiction.
      intros req [<-|[]]. reflexivity. }
  destruct (Str.is_empty id).
  { exists pre. cbn [fst snd]. rewrite Hs, Ht, Hd, Hc, Hsv.
    destruct Hpre as [->|[us ->]]; cbn; repeat split; auto; try lia;
      try discriminate; try contradiction.
    intros req [<-|[]]. reflexivity. }
  match goal with
  | |- context [ChatPostMessage ?t ?i ?x] =>
      exists (pre ++ [ChatPostMessage t i x])%list;
      destruct (server s1 (sent s1) (ChatPostMessage t i x)) as [data|e];
      [destruct (ok data)|]
  end; cbn [fst snd negb log_error client server sent errors];
    rewrite Hs, Ht, Hd, Hc, Hsv, List.app_assoc;
    (destruct Hpre as [->|[us ->]]; cbn;
     repeat split; auto; try lia; try discriminate;
     try (apply He; discriminate);
     try (intros req [<-|[]]; now cbn);
     try (intros req [<-|[<-|[]]]; now cbn)).
Qed.

Lemma post_frame_witness :
  let s := mkState (mkClient "xoxb-1" (Some "U07") None None) friendly_server [] [] in
  exists new,
    sent (snd (post "hello" None s)) = (sent s ++ new)%list
    /\ List.length new <= 2
    /\ List.length (filter is_message new) <= 1
    /\ (forall req, In req new -> token_of req = bot_token (client s))
    /\ bot_token (client (snd (post "hello" None s))) = bot_token (client s)
    /\ dm_user_id (client (snd (post "hello" None s))) = dm_user_id (client s)
    /\ channel (client (snd (post "hello" None s))) = channel (client s)
    /\ server (snd (post "hello" None s)) = server s
    /\ (fst (post "hello" None s) = true ->
        List.length (filter is_message new) = 1
        /\ errors (snd (post "hello" None s)) = errors s).
Proof. intros s. apply post_frame. Defined.

End SlackClient.

(** ** The poll loop over the Slack client *)

Section PollSlack.

Import Monitor.

Lemma availability_rel (w wp : World) (label class_code : string) :
  body_text w = body_text wp -> log w = log wp ->
  fst (get_course_availability w label class_code)
  = fst (get_course_availability wp label class_code)
  /\ body_text (snd (get_course_availability w label class_code))
     = body_text (snd (get_course_availability wp label class_code))
  /\ log (snd (get_course_availability w label class_code))
     = log (snd (get_course_availability wp label class_code))
  /\ posted (snd (get_course_availability w label class_code)) = posted w.
Proof.
  intros Hb Hl. unfold get_course_availability.
  rewrite (lookup_ext w wp label class_code Hb).
  destruct (lookup wp label class_code); cbn; rewrite ?Hl; auto.
Qed.

Lemma poll_slack_channel_rel (channel ch : string) (courses : list (string * string)) :
  forall (w wp : World) (s : Slack.State),
    body_text w = body_text wp -> log w = log wp ->
    Slack.channel (Slack.client s) = Some ch -> ch <> "" ->
    exists news,
      posted (poll channel courses w) = (posted w ++ news)%list
      /\ Slack.sent (snd (Main.poll_slack channel courses wp s))
         = (Slack.sent s ++ map (channel_request (Slack.client s) ch) news)%list
      /\ Slack.client (snd (Main.poll_slack channel courses wp s)) = Slack.client s
      /\ log (fst (Main.poll_slack channel courses wp s))
         = log (poll channel courses w)
      /\ body_text (fst (Main.poll_slack channel courses wp s))
         = body_text (poll channel courses w).
Proof.
  induction courses as [|[label class_code] courses IH]; intros w wp s Hb Hl Hc Hne.
  - exists []. cbn. rewrite !List.app_nil_r. auto.
  - cbn [poll Main.poll_slack].
    destruct (availability_rel w wp label class_code Hb Hl) as (Hr & Hb1 & Hl1 & Hp1).
    destruct (get_course_availability w label class_code) as [[status ev] w1].
    destruct (get_course_availability wp label class_code) as [[status' ev'] wp1].
    cbn [fst snd] in Hr, Hb1, Hl1, Hp1. inversion Hr; subst status' ev'.
    destruct (available status).
    + destruct (post_channel_frame ("*" ++ status ++ "*") ch s Hc Hne)
        as (Hs & Hcl & Hsv & _).
      destruct (Slack.post ("*" ++ status ++ "*") None s) as [b s2].
      cbn [fst snd] in Hs, Hcl, Hsv.
      destruct (IH (slack_post ("*" ++ status ++ "*")
                      (logger INFO ("Posting " ++ status ++ " to " ++ channel) w1))
                   (logger INFO ("Posting " ++ status ++ " to " ++ channel) wp1)
                   s2)
        as (news & H1 & H2 & H3 & H4 & H5).
      * cbn. exact Hb1.
      * cbn. now rewrite Hl1.
      * now rewrite Hcl.
      * exact Hne.
      * exists (("*" ++ status ++ "*") :: news).
        rewrite H1, H2, H3, H4, H5, Hs, Hcl. cbn [slack_post posted logger map].
        rewrite Hp1, <- !List.app_assoc. auto.
    + destruct (IH w1 wp1 s Hb1 Hl1 Hc Hne) as (news & H1 & H2 & H3 & H4 & H5).
      exists news. rewrite H1, H2, H3, H4, H5, Hp1. auto.
Qed.

(** X19: with a client that has a channel, as [main] sets it up, the loop
    sends one chat.postMessage request to that channel for each message
    the poll loop hands over, in the same order and with the ping of the
    client's user, sends nothing else and leaves the client as it was;
    the page and the log are those of the poll loop. *)
Theorem poll_slack_sends_posted
        (channel ch : string) (courses : list (string * string))
        (w : World) (s : Slack.State) :
  Slack.channel (Slack.client s) = Some ch -> ch <> "" ->
  exists news,
    posted (poll channel courses w) = (posted w ++ news)%list
    /\ Slack.sent (snd (Main.poll_slack channel courses w s))
       = (Slack.sent s ++ map (channel_request (Slack.client s) ch) news)%list
    /\ Slack.client (snd (Main.poll_slack channel courses w s)) = Slack.client s
    /\ log (fst (Main.poll_slack channel courses w s)) = log (poll channel courses w)
    /\ body_text (fst (Main.poll_slack channel courses w s)) = body_text w.
Proof.
  intros Hc Hne.
  destruct (poll_slack_channel_rel channel ch courses w w s eq_refl eq_refl Hc Hne)
    as (news & H1 & H2 & H3 & H4 & H5).
  exists news. repeat split; auto.
  rewrite H5. now destruct (poll_news channel courses w) as (? & -> & _).
Qed.

Lemma poll_slack_sends_posted_witness :
  let s := Slack.mkState (Slack.mkClient "xoxb-1" (Some "U07") (Some "#ucla") None)
                         friendly_server [] [] in
  exists news,
    posted (poll "#ucla" COURSES (browser page_aero))
    = (posted (browser page_aero) ++ news)%list
    /\ Slack.sent (snd (Main.poll_slack "#ucla" COURSES (browser page_aero) s))
       = (Slack.sent s ++ map (channel_request (Slack.client s) "#ucla") news)%list
    /\ Slack.client (snd (Main.poll_slack "#ucla" COURSES (browser page_aero) s))
       = Slack.client s
    /\ log (fst (Main.poll_slack "#ucla" COURSES (browser page_aero) s))
       = log (poll "#ucla" COURSES (browser page_aero))
    /\ body_text (fst (Main.poll_slack "#ucla" COURSES (browser page_aero) s))
       = body_text (browser page_aero).
Proof.
  intros s. apply poll_slack_sends_posted; [reflexivity|discriminate].
Defined.

Example poll_slack_aero :
  Slack.sent (snd (Main.poll_slack "#ucla" COURSES (browser page_aero)
                     (Slack.mkState
                        (Slack.mkClient "xoxb-1" (Some "U07") (Some "#ucla") None)
                        friendly_server [] [])))
  = [Slack.ChatPostMessage "xoxb-1" "#ucla" "<@U07> *[AERO - 84 SEATS OPEN]*"].
Proof. reflexivity. Qed.

End PollSlack.

(** ** Pooling over the matching blocks *)

Section Pooling.

Import Monitor.

Lemma rows_nil_iff (block : string) :
  _get_lec_lab_rows block = [] <->
  forall line, In line (content_lines block) -> starts_lec_lab (Str.strip line) = false.
Proof.
  assert (H : List.length (_get_lec_lab_rows block) =
              List.length (filter (fun l => starts_lec_lab (Str.strip l))
                                  (content_lines block)))
    by apply (rows_loop_count_bounded _ _ (le_n _)).
  split.
  - intros E line Hin. rewrite E in H.
    destruct (starts_lec_lab (Str.strip line)) eqn:El; [|reflexivity].
    assert (Hf : In line (filter (fun l => starts_lec_lab (Str.strip l))
                                 (content_lines block)))
      by (apply filter_In; auto).
    destruct (filter (fun l => starts_lec_lab (Str.strip l)) (content_lines block));
      [contradiction|discriminate].
  - intros Hall.
    destruct (filter (fun l => starts_lec_lab (Str.strip l)) (content_lines block))
      as [|l ls] eqn:Ef.
    + destruct (_get_lec_lab_rows block); [reflexivity|discriminate].
    + assert (Hin : In l (l :: ls)) by now left. rewrite <- Ef in Hin.
      apply filter_In in Hin as [Hin Hl]. rewrite (Hall _ Hin) in Hl. discriminate.
Qed.

(** X20: the rows of all matching blocks are judged together, in block
    order: a closed signal in any pooled row makes the course CLOSED,
    whatever seats the other rows and blocks offer, provided [int]
    accepted the counts of the pooled rows before it. *)
Theorem closed_in_any_matching_block
        (w : World) (page_text label class_code first row : string)
        (others pre post : list string) :
  body_text w = Ok page_text ->
  matching page_text class_code = first :: others ->
  flat_map _get_lec_lab_rows (first :: others) = (pre ++ row :: post)%list ->
  closed_signal row ->
  (forall r, In r pre -> ints_ok r = true) ->
  fst (get_course_availability w label class_code)
  = (fmt label "CLOSED", Str.take 600 first).
Proof.
  intros Hw Hm Hrows Hc Hpre.
  assert (Hne : flat_map _get_lec_lab_rows (first :: others) <> [])
    by (rewrite Hrows; now destruct pre).
  pose proof (lookup_status w _ label _ _ _ Hw Hm Hne) as H.
  rewrite Hrows in H. unfold _parse_lec_lab_status in H.
  rewrite (status_loop_closed pre row post Hpre Hc) in H. cbn [bind] in H.
  now rewrite (availability_ok _ _ _ _ H).
Qed.

Lemma closed_in_any_matching_block_witness :
  let b1 := "Class 1:" ++ nl ++ "61 - Linear Algebra" ++ nl ++ "Lec 1" ++ nl
            ++ "Open: 40 of 90 left" in
  let b2 := "Class 2:" ++ nl ++ "61 - Linear Algebra" ++ nl ++ "Lab 1" ++ nl
            ++ "Class Full" in
  fst (get_course_availability (browser (b1 ++ nl ++ b2)) "M61" "61")
  = (fmt "M61" "CLOSED", Str.take 600 b1).
Proof.
  intros b1 b2.
  apply (closed_in_any_matching_block (browser (b1 ++ nl ++ b2)) (b1 ++ nl ++ b2)
           "M61" "61" b1 "Lab 1 Class Full" [b2]
           ["Lec 1 Open: 40 of 90 left"] []).
  - reflexivity.
  - reflexivity.
  - reflexivity.
  - right. reflexivity.
  - intros r [<-|[]]. reflexivity.
Defined.

Lemma verdict_label_found (label : string) (verdict : string * option N) :
  verdict_label label verdict <> fmt label "NOT FOUND".
Proof.
  assert (Hn : forall n tail, Str.of_int n ++ tail <> "NOT FOUND").
  { intros n tail H. destruct (of_int_head n) as (c & t & Ec & Hc).
    rewrite Ec in H. inversion H; subst c. discriminate. }
  destruct verdict as [status count]. unfold verdict_label.
  destruct (String.eqb status "closed");
    [intros H; apply fmt_inj in H; discriminate|].
  destruct (String.eqb status "open"), (String.eqb status "waitlist"),
    count as [n|]; cbn [andb is_not_none str_count];
    intros H; apply fmt_inj in H; try discriminate; now apply Hn in H.
Qed.

(** X21: when the page is read and some block matches, the result is NOT
    FOUND exactly when no matching block has a content line that starts,
    once trimmed and case-insensitively, with lec or lab. *)
Theorem not_found_iff_no_section_line
        (w : World) (page_text label class_code first : string)
        (others : list string) :
  body_text w = Ok page_text ->
  matching page_text class_code = first :: others ->
  fst (fst (get_course_availability w label class_code)) = fmt label "NOT FOUND"
  <->
  forall block line,
    In block (first :: others) -> In line (content_lines block) ->
    starts_lec_lab (Str.strip line) = false.
Proof.
  intros Hw Hm.
  assert (Hnil : flat_map _get_lec_lab_rows (first :: others) = [] <->
                 forall block line,
                   In block (first :: others) -> In line (content_lines block) ->
                   starts_lec_lab (Str.strip line) = false).
  { split.
    - intros E block line Hb. apply rows_nil_iff.
      destruct (_get_lec_lab_rows block) as [|r rs] eqn:Er; [reflexivity|].
      assert (Hin : In r (flat_map _get_lec_lab_rows (first :: others)))
        by (apply in_flat_map; exists block; rewrite Er; split; [auto|now left]).
      rewrite E in Hin. contradiction.
    - intros Hall.
      destruct (flat_map _get_lec_lab_rows (first :: others)) as [|r rs] eqn:E;
        [reflexivity|].
      assert (Hin : In r (flat_map _get_lec_lab_rows (first :: others)))
        by (rewrite E; now left).
      apply in_flat_map in Hin as (block & Hb & Hr).
      rewrite (proj2 (rows_nil_iff block) (fun l => Hall block l Hb)) in Hr.
      contradiction. }
  rewrite <- Hnil.
  destruct (flat_map _get_lec_lab_rows (first :: others)) as [|r rs] eqn:Hr.
  - rewrite (availability_ok _ _ _ _ (lookup_no_rows _ _ label _ _ _ Hw Hm Hr)).
    split; reflexivity.
  - split; [|discriminate]. intros H. exfalso.
    pose proof (lookup_status w _ label _ _ _ Hw Hm
                  ltac:(rewrite Hr; discriminate)) as Hl.
    destruct (_parse_lec_lab_status (flat_map _get_lec_lab_rows (first :: others)))
      as [verdict|e]; cbn [bind] in Hl.
    + rewrite (availability_ok _ _ _ _ Hl) in H. cbn [fst] in H.
      now apply (verdict_label_found label verdict).
    + rewrite (availability_raise _ _ _ _ Hl) in H. cbn [fst] in H.
      apply fmt_inj in H. discriminate.
Qed.

Lemma not_found_iff_no_section_line_witness :
  fst (fst (get_course_availability (browser page_dis_only) "AERO" "A"))
  = fmt "AERO" "NOT FOUND".
Proof.
  apply (proj2 (not_found_iff_no_section_line (browser page_dis_only) page_dis_only
                  "AERO" "A" page_dis_only [] eq_refl eq_refl)).
  intros block line [<-|[]] Hl. vm_compute in Hl.
  destruct Hl as [<-|[]]. reflexivity.
Defined.

End Pooling.
